(** * letsgo: the certificate issuance orchestrator of [examples/python_usage.py]

    A shallow embedding of the Python function [letsgo] and the properties
    its specification states about it.

    Modelling conventions.
    - Python [str] values are [string].  Text encoding is not modelled
      beyond this: a regular file either holds text, given as the string
      it decodes to, or bytes that do not decode in the locale's encoding.
    - [os.environ] and the child environment are [gmap string string].
    - The filesystem is a finite map from path strings to nodes (a
      directory or a regular file).  Directories need not be bound: a path
      is looked up as a whole, and only a regular file met on the way to
      it is an obstacle.  Permissions, symbolic links and limits on the
      length of names are not modelled: a read fails only for what is, or
      is not, at the path.  Paths are POSIX
      paths compared as strings; [pathlib]'s removal of redundant
      separators and dot components is not modelled, its treatment of an
      absolute right operand of [joinpath] is.
    - The platform is POSIX ([os.linesep] is a line feed): [write_text]
      stores its argument unchanged, [read_text] reads in text mode with
      universal newlines.
    - Effects are threaded through a state-and-exception monad; every
      effect also appends to a ghost log of events, which the theorems use
      to speak about what was done and in which order.
    - [shutil.which], strict path resolution, the choice of the temporary
      directory name and the external agent are collaborators: they are
      variables of the section in which [letsgo] is defined. *)

From Stdlib Require Import ZArith Ascii String.
From stdpp Require Import gmap strings list fin_maps.

Local Open Scope string_scope.
Local Open Scope Z_scope.
Local Open Scope list_scope.

(** ** Python string operations *)

Module PyStr.

Definition comma : ascii := ","%char.
Definition star : ascii := "*"%char.
Definition underscore : ascii := "_"%char.
(** Carriage return (13) and line feed (10). *)
Definition CR : ascii := Ascii.ascii_of_nat 13.
Definition LF : ascii := Ascii.ascii_of_nat 10.

(** [s.split(sep)] for a one-character separator: cuts at every
    occurrence, keeps empty pieces, never returns the empty list. *)
Fixpoint split (sep : ascii) (s : string) : list string :=
  match s with
  | EmptyString => [EmptyString]
  | String c s' =>
      if Ascii.eqb c sep then EmptyString :: split sep s'
      else match split sep s' with
           | h :: t => String c h :: t
           | [] => [String c EmptyString]
           end
  end.

(** [s.replace(old, new)] for one-character [old] and [new]. *)
Fixpoint replace (old new : ascii) (s : string) : string :=
  match s with
  | EmptyString => EmptyString
  | String c s' =>
      String (if Ascii.eqb c old then new else c) (replace old new s')
  end.

(** Truthiness of a string: [if s:] holds for non-empty [s]. *)
Definition truthy (s : string) : bool :=
  match s with EmptyString => false | String _ _ => true end.

(** Text-mode reading with [newline=None]: every CR LF pair and every
    remaining CR becomes a single LF. *)
Fixpoint universal_newlines (s : string) : string :=
  match s with
  | EmptyString => EmptyString
  | String c s' =>
      if Ascii.eqb c CR then
        match s' with
        | String c' s'' =>
            if Ascii.eqb c' LF then String LF (universal_newlines s'')
            else String LF (universal_newlines s')
        | EmptyString => String LF EmptyString
        end
      else String c (universal_newlines s')
  end.

(** [c in s] for a character. *)
Fixpoint contains (c : ascii) (s : string) : bool :=
  match s with
  | EmptyString => false
  | String c' s' => Ascii.eqb c' c || contains c s'
  end.

(** [s.startswith(p)]. *)
Definition startswith (p s : string) : bool := String.prefix p s.

End PyStr.

(** ** Exceptions *)

Inductive errno := ENOENT | EACCES | ENOEXEC | ENOTDIR | EISDIR.

(** The exceptions [letsgo] can let escape.  [OSError ENOENT f] is Python's
    [FileNotFoundError] with [filename = f], [OSError EACCES f] its
    [PermissionError], [OSError EISDIR f] its [IsADirectoryError],
    [OSError ENOTDIR f] its [NotADirectoryError]. *)
Inductive exn :=
| TypeError
| IndexError
| UnicodeDecodeError
| OSError (code : errno) (filename : string)
| CalledProcessError (returncode : Z) (cmd : list string) (output : string).

Abbreviation FileNotFoundError := (OSError ENOENT).
Abbreviation IsADirectoryError := (OSError EISDIR).
Abbreviation NotADirectoryError := (OSError ENOTDIR).

(** ** Alias derivation: [domain.split(",")[0].replace("*", "_")] *)

(** [l[0]]: raises [IndexError] on the empty list. *)
Definition subscript0 (l : list string) : exn + string :=
  match l with
  | [] => inl IndexError
  | x :: _ => inr x
  end.

Definition main_domain_of (domain : string) : exn + string :=
  match subscript0 (PyStr.split PyStr.comma domain) with
  | inl e => inl e
  | inr first => inr (PyStr.replace PyStr.star PyStr.underscore first)
  end.

(** The specification's wording: the substring before the first comma (the
    whole string when there is none), then every star replaced. *)
Definition before_first_comma (d : string) : string :=
  match String.index 0 "," d with
  | Some i => String.substring 0 i d
  | None => d
  end.

Definition star_to_underscore (c : ascii) : ascii :=
  if ascii_dec c "*" then "_"%char else c.

Fixpoint map_chars (f : ascii -> ascii) (s : string) : string :=
  match s with
  | EmptyString => EmptyString
  | String c s' => String (f c) (map_chars f s')
  end.

Definition deriveAlias_spec (d : string) : string :=
  map_chars star_to_underscore (before_first_comma d).

(** ** The world: environment, filesystem and the ghost log *)

(** A directory, a regular file holding text, or a regular file whose
    bytes do not decode. *)
Inductive node :=
| Dir
| File (content : string)
| Undecodable.

Abbreviation filesystem := (gmap string node).
Abbreviation environment := (gmap string string).

(** What running [[bin_path]] with an environment on a filesystem does:
    the launch fails with an [OSError], or the process runs, changes the
    filesystem at will and exits with a status and its standard output. *)
Inductive outcome :=
| NotLaunched (code : errno)
| Exited (returncode : Z) (stdout : string) (after : filesystem).

(** Ghost events.  [EvRun] records the filesystem the child starts on. *)
Inductive event :=
| EvMkdtemp (d : string)
| EvWrite (path content : string)
| EvRun (argv : list string) (env : environment) (before : filesystem)
| EvRead (path : string)
| EvRmtree (d : string).

Record world := World {
  environ : environment;
  fs : filesystem;
  log : list event
}.

Definition set_fs (f : filesystem) (w : world) : world :=
  World (environ w) f (log w).

Definition emit (e : event) (w : world) : world :=
  World (environ w) (fs w) (log w ++ [e]).

(** ** The state-and-exception monad *)

Definition M (A : Type) : Type := world -> (exn + A) * world.

#[global] Instance M_ret : MRet M := fun A (x : A) w => (inr x, w).

#[global] Instance M_bind : MBind M := fun A B (f : A -> M B) (m : M A) w =>
  match m w with
  | (inl e, w') => (inl e, w')
  | (inr x, w') => f x w'
  end.

Definition raise {A} (e : exn) : M A := fun w => (inl e, w).

Definition lift {A} (r : exn + A) : M A := fun w => (r, w).

(** ** pathlib *)

(** [root.joinpath(name)]: an absolute [name] replaces [root]. *)
Definition joinpath (root name : string) : string :=
  if PyStr.startswith "/" name then name else root ++ "/" ++ name.

(** [p] is the directory [d] or lies below it. *)
Definition inside (d p : string) : bool :=
  String.eqb p d || PyStr.startswith (d ++ "/") p.

(** [shutil.rmtree(d)]: the directory and everything below it is gone. *)
Definition rmtree (d : string) (f : filesystem) : filesystem :=
  filter (fun kv => inside d kv.1 = false) f.

(** [pathlib.Path(x)]: [pathlib.Path(None)] raises [TypeError]. *)
Definition pathlib_Path (x : option string) : M string :=
  match x with
  | None => raise TypeError
  | Some p => mret p
  end.

(** [path.write_text(data)]. *)
Definition write_text (path data : string) : M unit := fun w =>
  (inr tt, emit (EvWrite path data) (set_fs (<[path := File data]> (fs w)) w)).

(** The proper ancestors of a path: what stands before each of its
    slashes. *)
Fixpoint parents_from (seen rest : string) : list string :=
  match rest with
  | EmptyString => []
  | String c rest' =>
      (if Ascii.eqb c "/" then [seen] else [])
      ++ parents_from (seen ++ String c EmptyString) rest'
  end.

Definition parents (p : string) : list string := parents_from "" p.

Definition is_regular (f : filesystem) (p : string) : bool :=
  match f !! p with
  | Some (File _) | Some Undecodable => true
  | _ => false
  end.

(** A regular file stands where [p] needs a directory. *)
Definition under_file (f : filesystem) (p : string) : bool :=
  existsb (is_regular f) (parents p).

(** [path.read_text()]: text mode with universal newlines.  Where nothing
    is at the path, [open] fails with [ENOTDIR] if a regular file is met
    on the way and with [ENOENT] otherwise; bytes that do not decode raise
    [UnicodeDecodeError]. *)
Definition read_text (path : string) : M string := fun w =>
  let w' := emit (EvRead path) w in
  match fs w !! path with
  | Some (File c) => (inr (PyStr.universal_newlines c), w')
  | Some Undecodable => (inl UnicodeDecodeError, w')
  | Some Dir => (inl (IsADirectoryError path), w')
  | None =>
      if under_file (fs w) path then (inl (NotADirectoryError path), w')
      else (inl (FileNotFoundError path), w')
  end.

(** [os.environ.copy()]: the caller's environment is read, never written. *)
Definition os_environ_copy : M environment := fun w => (inr (environ w), w).

Definition BIN_NAME : string := "letsgo".
Definition ACCOUNT_KEYFILE : string := "account.key".

Section Letsgo.

(** [shutil.which(name)]: [None] when no executable of that name is found. *)
Variable shutil_which : string -> option string.
(** [Path(p).resolve(True)]: the absolute path with symbolic links
    resolved, [None] when [p] does not exist. *)
Variable realpath : string -> option string.
(** The name [tempfile.mkdtemp] picks on a given filesystem. *)
Variable mkdtemp_name : filesystem -> string.
(** The behaviour of the operating system asked to run a command. *)
Variable agent : list string -> environment -> filesystem -> outcome.

(** [Path(p).resolve(True)]. *)
Definition resolve_strict (p : string) : M string :=
  match realpath p with
  | Some q => mret q
  | None => raise (FileNotFoundError p)
  end.

(** [with tempfile.TemporaryDirectory() as tmpdir: body]: the directory is
    made, the body runs, and the directory is removed whether the body
    returned or raised; an exception of the body then propagates. *)
Definition TemporaryDirectory {A} (body : string -> M A) : M A := fun w =>
  let tmpdir := mkdtemp_name (fs w) in
  let w1 := emit (EvMkdtemp tmpdir) (set_fs (<[tmpdir := Dir]> (fs w)) w) in
  let '(r, w2) := body tmpdir w1 in
  (r, emit (EvRmtree tmpdir) (set_fs (rmtree tmpdir (fs w2)) w2)).

(** [subprocess.check_output(argv, env=env)]. *)
Definition check_output (argv : list string) (env : environment) : M string :=
  fun w =>
    let w0 := emit (EvRun argv env (fs w)) w in
    match agent argv env (fs w) with
    | NotLaunched code => (inl (OSError code (hd "" argv)), w0)
    | Exited rc out after =>
        if rc =? 0 then (inr out, set_fs after w0)
        else (inl (CalledProcessError rc argv out), set_fs after w0)
    end.

(** Lines 20-29: where the binary is. *)
Definition resolve_bin (bin_name : string) : M string :=
  if String.eqb bin_name BIN_NAME then
    p ← pathlib_Path (shutil_which bin_name);
    q ← resolve_strict p;
    (* [as_posix()] returns a [str]: the test below never fires *)
    let bin_path : option string := Some q in
    match bin_path with
    | None => raise (FileNotFoundError "letsgo binary not found")
    | Some b => mret b
    end
  else
    mret bin_name.

(** Lines 53-58: the four reads, in the order of the source. *)
Definition read_artifacts (root_dir main_domain account_key_file : string)
    : M (string * string * string * string) :=
  cert ← read_text (joinpath root_dir (main_domain ++ ".crt"));
  key ← read_text (joinpath root_dir (main_domain ++ ".key"));
  issuer ← read_text (joinpath root_dir (main_domain ++ ".issuer.crt"));
  account_key ← read_text account_key_file;
  mret (cert, key, issuer, account_key).

(** Lines 40-58: the body of the [with] block. *)
Definition in_workspace (cmd_env : environment)
    (main_domain account_key bin_path tmpdir : string)
    : M (string * string * string * string) :=
  let root_dir := tmpdir in
  let account_key_file := joinpath root_dir ACCOUNT_KEYFILE in
  let cmd_env := <["OUTPUT_DIRECTORY" := tmpdir]> cmd_env in
  let cmd_env := <["FILENAME" := main_domain]> cmd_env in
  let cmd_env := <["ACCOUNT_KEY_FILE" := account_key_file]> cmd_env in
  (if PyStr.truthy account_key
   then write_text account_key_file account_key
   else mret tt);;
  check_output [bin_path] cmd_env;;
  read_artifacts root_dir main_domain account_key_file.

(** Lines 61-67: the dictionary returned. *)
Definition result_dict (main_domain cert key issuer account_key : string)
    : gmap string string :=
  <["alias" := main_domain]>
    (<["certificate" := cert]>
      (<["key" := key]>
        (<["issuer" := issuer]>
          (<["account_key" := account_key]> ∅)))).

(** Lines 12-67.  The defaults of the source are [account_key = ""],
    [ca_dir = "STAGING"] and [bin_name = BIN_NAME]. *)
Definition letsgo
    (domain account_email keyvault account_key ca_dir bin_name : string)
    : M (gmap string string) :=
  bin_path ← resolve_bin bin_name;
  cmd_env ← os_environ_copy;
  let cmd_env := <["DOMAINS" := domain]> cmd_env in
  let cmd_env := <["ACCOUNT_EMAIL" := account_email]> cmd_env in
  let cmd_env := <["DNS_AUTH_TOKEN_VAULT" := keyvault]> cmd_env in
  let cmd_env := <["CA_DIR" := ca_dir]> cmd_env in
  main_domain ← lift (main_domain_of domain);
  '(cert, key, issuer, account_key) ←
    TemporaryDirectory
      (in_workspace cmd_env main_domain account_key bin_path);
  mret (result_dict main_domain cert key issuer account_key).

End Letsgo.

(** ** Vocabulary of the statements *)

(** The seven keys of section 6 with the values of a request, in the
    order of the specification's table. *)
Definition overlay
    (domain account_email keyvault ca_dir tmpdir main_domain : string)
    : list (string * string) :=
  [ ("DOMAINS", domain);
    ("ACCOUNT_EMAIL", account_email);
    ("DNS_AUTH_TOKEN_VAULT", keyvault);
    ("CA_DIR", ca_dir);
    ("OUTPUT_DIRECTORY", tmpdir);
    ("FILENAME", main_domain);
    ("ACCOUNT_KEY_FILE", tmpdir +:+ "/" +:+ ACCOUNT_KEYFILE) ].

(** The specification's wording of the child environment: the inherited
    one overlaid with the seven keys, the overlay winning. *)
Definition overlaid (ov : list (string * string)) (inherited : environment)
    : environment :=
  list_to_map ov ∪ inherited.

(** The filesystem the child starts on: the fresh directory, and the
    account key in it when one was supplied. *)
Definition seeded (account_key tmpdir : string) (f : filesystem) : filesystem :=
  let f1 := <[tmpdir := Dir]> f in
  if PyStr.truthy account_key
  then <[joinpath tmpdir ACCOUNT_KEYFILE := File account_key]> f1
  else f1.

Definition seed_events (account_key tmpdir : string) : list event :=
  if PyStr.truthy account_key
  then [EvWrite (joinpath tmpdir ACCOUNT_KEYFILE) account_key]
  else [].

(** The four files read back, in read order. *)
Definition artifact_paths (tmpdir main_domain : string) : list string :=
  [ joinpath tmpdir (main_domain ++ ".crt");
    joinpath tmpdir (main_domain ++ ".key");
    joinpath tmpdir (main_domain ++ ".issuer.crt");
    joinpath tmpdir ACCOUNT_KEYFILE ].

(** What [read_text] returns for a regular file. *)
Definition text_of (f : filesystem) (p : string) : option string :=
  match f !! p with
  | Some (File c) => Some (PyStr.universal_newlines c)
  | _ => None
  end.

Definition text_or_empty (f : filesystem) (p : string) : string :=
  default "" (text_of f p).

(** The exception [read_text] raises for a path it cannot read. *)
Definition read_error (f : filesystem) (p : string) : option exn :=
  match f !! p with
  | Some (File _) => None
  | Some Undecodable => Some UnicodeDecodeError
  | Some Dir => Some (IsADirectoryError p)
  | None =>
      Some (if under_file f p then NotADirectoryError p
            else FileNotFoundError p)
  end.

(** [p] is an entry of the directory [d]: [d], a slash and a name that has
    no slash. *)
Fixpoint strip_prefix (pre s : string) : option string :=
  match pre, s with
  | EmptyString, _ => Some s
  | String a pre', String b s' =>
      if Ascii.eqb a b then strip_prefix pre' s' else None
  | String _ _, EmptyString => None
  end.

Definition entry_of (d p : string) : bool :=
  match strip_prefix (d ++ "/") p with
  | Some name => PyStr.truthy name && negb (PyStr.contains "/" name)
  | None => false
  end.

(** The exception of the first of [paths] that cannot be read. *)
Fixpoint first_error (f : filesystem) (paths : list string) : option exn :=
  match paths with
  | [] => None
  | p :: ps =>
      match read_error f p with
      | Some e => Some e
      | None => first_error f ps
      end
  end.

(** The reads attempted on [paths]: they stop at the first failure. *)
Fixpoint read_events (f : filesystem) (paths : list string) : list event :=
  match paths with
  | [] => []
  | p :: ps =>
      EvRead p ::
      match read_error f p with
      | Some _ => []
      | None => read_events f ps
      end
  end.

(** The events an invocation appended to the log. *)
Definition appended (w w' : world) : list event :=
  drop (length (log w)) (log w').

Definition is_read (e : event) : bool :=
  match e with EvRead _ => true | _ => false end.

Definition is_write (e : event) : bool :=
  match e with EvWrite _ _ => true | _ => false end.

Definition is_run (e : event) : bool :=
  match e with EvRun _ _ _ => true | _ => false end.

(** ** Stand-ins for the collaborators, used at concrete inputs *)

Definition getenv (env : environment) (k : string) : string :=
  default "" (env !! k).

Definition put (p : string) (c : option string) (f : filesystem) : filesystem :=
  match c with
  | Some c => <[p := File c]> f
  | None => f
  end.

(** A scripted agent: writes the certificate, key and issuer it is given
    under the names the environment asks for, generates an account key
    when the key file is absent, and exits with status [rc]. *)
Definition stub_agent (crt key issuer fresh : option string) (rc : Z)
    (argv : list string) (env : environment) (f : filesystem) : outcome :=
  let out := getenv env "OUTPUT_DIRECTORY" in
  let name := getenv env "FILENAME" in
  let keyfile := getenv env "ACCOUNT_KEY_FILE" in
  let f := put (joinpath out (name ++ ".crt")) crt f in
  let f := put (joinpath out (name ++ ".key")) key f in
  let f := put (joinpath out (name ++ ".issuer.crt")) issuer f in
  let f := match f !! keyfile with
           | Some _ => f
           | None => put keyfile fresh f
           end in
  Exited rc "" f.

(** An agent that issues everything. *)
Definition issuing_agent : list string -> environment -> filesystem -> outcome :=
  stub_agent (Some "CERT") (Some "KEY") (Some "ISSUER") (Some "FRESH") 0.

(** No such program: the launch fails. *)
Definition no_such_program
    (argv : list string) (env : environment) (f : filesystem) : outcome :=
  NotLaunched ENOENT.

Definition which_finds (name : string) : option string :=
  Some ("/usr/bin/" +:+ name).

Definition which_finds_nothing (name : string) : option string := None.

Definition realpath_same (p : string) : option string := Some p.

Definition realpath_dangling (p : string) : option string := None.

Definition tmp_a (f : filesystem) : string := "/tmp/tmpa".

Definition demo_world : world :=
  World (<["PATH" := "/usr/bin"]> (<["FILENAME" := "inherited"]> ∅)) ∅ [].

Definition tmp_a_key : string := "/tmp/tmpa/account.key".

(** An account key with Windows line ends, and the same with POSIX ones. *)
Definition crlf_key : string :=
  String "k" (String PyStr.CR (String PyStr.LF EmptyString)).

Definition lf_key : string := String "k" (String PyStr.LF EmptyString).

(** An agent that writes four empty files and reports success. *)
Definition hollow_agent : list string -> environment -> filesystem -> outcome :=
  stub_agent (Some "") (Some "") (Some "") (Some "") 0.

(** An agent that forgets the private key. *)
Definition keyless_agent : list string -> environment -> filesystem -> outcome :=
  stub_agent (Some "CERT") None (Some "ISSUER") (Some "FRESH") 0.


(** The demonstration of the source's [__main__]: first issuance. *)
Definition demo_run : (exn + gmap string string) * world :=
  letsgo which_finds realpath_same tmp_a issuing_agent
    "demo.example.com" "support@example.com" "demo-keyvault" "" "STAGING"
    BIN_NAME demo_world.

(** The same with an account key that has Windows line ends. *)
Definition crlf_run : (exn + gmap string string) * world :=
  letsgo which_finds realpath_same tmp_a issuing_agent
    "demo.example.com" "support@example.com" "demo-keyvault" crlf_key
    "STAGING" BIN_NAME demo_world.

(** What the agent of [crlf_run] is started on and what it leaves. *)
Definition crlf_launch : outcome :=
  issuing_agent ["/usr/bin/letsgo"]
    (overlaid (overlay "demo.example.com" "support@example.com"
                 "demo-keyvault" "STAGING" "/tmp/tmpa" "demo.example.com")
              (environ demo_world))
    (seeded crlf_key "/tmp/tmpa" (fs demo_world)).

Definition hollow_run : (exn + gmap string string) * world :=
  letsgo which_finds realpath_same tmp_a hollow_agent
    "demo.example.com" "support@example.com" "demo-keyvault" "" "STAGING"
    BIN_NAME demo_world.

(** An explicit program name that exists nowhere. *)
Definition absent_run : (exn + gmap string string) * world :=
  letsgo which_finds_nothing realpath_dangling tmp_a no_such_program
    "demo.example.com" "support@example.com" "demo-keyvault" "" "STAGING"
    "no-such-agent" demo_world.

(** The second issuance of [__main__]: the returned account key is
    passed back. *)
Definition reissue_run : (exn + gmap string string) * world :=
  letsgo which_finds realpath_same tmp_a issuing_agent
    "demo.example.com" "support@example.com" "demo-keyvault" "FRESH"
    "STAGING" BIN_NAME demo_world.


Definition keyless_run : (exn + gmap string string) * world :=
  letsgo which_finds realpath_same tmp_a keyless_agent
    "demo.example.com" "support@example.com" "demo-keyvault" "" "STAGING"
    BIN_NAME demo_world.

(** An agent that does nothing and reports success. *)
Definition idle_agent
    (argv : list string) (env : environment) (f : filesystem) : outcome :=
  Exited 0 "" f.





(** The alias [account], with an account key and no private key written. *)
Definition account_alias_run : (exn + gmap string string) * world :=
  letsgo which_finds realpath_same tmp_a keyless_agent
    "account" "support@example.com" "demo-keyvault" "KEY0" "STAGING"
    BIN_NAME demo_world.

(** A domain below the name of the account key file. *)
Definition below_key_run : (exn + gmap string string) * world :=
  letsgo which_finds realpath_same tmp_a idle_agent
    "account.key/x" "support@example.com" "demo-keyvault" "KEY" "STAGING"
    BIN_NAME demo_world.

(** The environment of the child in the runs above. *)
Definition demo_env : environment :=
  overlaid (overlay "demo.example.com" "support@example.com"
              "demo-keyvault" "STAGING" "/tmp/tmpa" "demo.example.com")
           (environ demo_world).

(** The filesystem an outcome leaves. *)
Definition left_by (o : outcome) : filesystem :=
  match o with
  | Exited _ _ after => after
  | NotLaunched _ => ∅
  end.

(** The dictionary of a run that returned. *)
Definition returned_by (run : (exn + gmap string string) * world)
    : gmap string string :=
  match run.1 with
  | inr r => r
  | inl _ => ∅
  end.

(** ** The script: lines 69-97 *)

(** The script prints and subscripts dictionaries, which [letsgo] does
    not: its state adds the lines printed, its exceptions add [KeyError]. *)
Record script_world := ScriptWorld {
  base : world;
  stdout : list string
}.

Inductive script_exn :=
| Raised (e : exn)
| KeyError (key : string).

Definition Script (A : Type) : Type :=
  script_world -> (script_exn + A) * script_world.

#[global] Instance Script_ret : MRet Script := fun A (x : A) sw => (inr x, sw).

#[global] Instance Script_bind : MBind Script :=
  fun A B (f : A -> Script B) (m : Script A) sw =>
    match m sw with
    | (inl e, sw') => (inl e, sw')
    | (inr x, sw') => f x sw'
    end.

(** Running a computation of [M] inside the script. *)
Definition call {A} (m : M A) : Script A := fun sw =>
  match m (base sw) with
  | (inl e, w') => (inl (Raised e), ScriptWorld w' (stdout sw))
  | (inr x, w') => (inr x, ScriptWorld w' (stdout sw))
  end.

(** [print(s)]. *)
Definition print (s : string) : Script unit := fun sw =>
  (inr tt, ScriptWorld (base sw) (stdout sw ++ [s])).

(** [d[k]]: raises [KeyError] for a missing key. *)
Definition getitem (d : gmap string string) (k : string) : Script string :=
  fun sw =>
    match d !! k with
    | Some v => (inr v, sw)
    | None => (inl (KeyError k), sw)
    end.

Definition is_dir (f : filesystem) (p : string) : bool :=
  match f !! p with
  | Some Dir => true
  | _ => false
  end.

(** [pathlib.Path(path).write_text(data)] in the working directory, which
    is not of the script's making: where [path] is a directory, [open]
    raises [IsADirectoryError] and nothing is written.  This is the one
    failure of a write that the filesystem of the model can show; the
    statements about the script are about the runs in which it
    completes. *)
Definition Path_write_text (path data : string) : M unit := fun w =>
  if is_dir (fs w) path then (inl (IsADirectoryError path), w)
  else write_text path data w.

Definition DEMO_DOMAINS : string := "demo.example.com".
Definition DEMO_ACCOUNT : string := "support@example.com".
Definition DEMO_KEYVAULT : string := "demo-keyvault".

Section Script.

Variable shutil_which : string -> option string.
Variable realpath : string -> option string.
Variable mkdtemp_name : filesystem -> string.
Variable agent : list string -> environment -> filesystem -> outcome.

(** The body of [if __name__ == "__main__":].  Relative paths are paths of
    the working directory. *)
Definition main : Script unit :=
  results ← call (letsgo shutil_which realpath mkdtemp_name agent
                    DEMO_DOMAINS DEMO_ACCOUNT DEMO_KEYVAULT
                    "" "STAGING" BIN_NAME);
  x ← getitem results "alias"; print x;;
  x ← getitem results "certificate"; print x;;
  x ← getitem results "key"; print x;;
  x ← getitem results "issuer"; print x;;
  account_key ← getitem results "account_key";
  results ← call (letsgo shutil_which realpath mkdtemp_name agent
                    DEMO_DOMAINS DEMO_ACCOUNT DEMO_KEYVAULT
                    account_key "STAGING" BIN_NAME);
  alias ← getitem results "alias";
  x ← getitem results "account_key";
  call (Path_write_text "account.key" x);;
  x ← getitem results "certificate";
  call (Path_write_text (alias +:+ ".crt") x);;
  x ← getitem results "issuer";
  call (Path_write_text (alias +:+ ".issuer.crt") x);;
  x ← getitem results "key";
  call (Path_write_text (alias +:+ ".key") x).

(** The two calls of the script. *)
Definition first_issue : M (gmap string string) :=
  letsgo shutil_which realpath mkdtemp_name agent
    DEMO_DOMAINS DEMO_ACCOUNT DEMO_KEYVAULT "" "STAGING" BIN_NAME.

Definition second_issue (account_key : string) : M (gmap string string) :=
  letsgo shutil_which realpath mkdtemp_name agent
    DEMO_DOMAINS DEMO_ACCOUNT DEMO_KEYVAULT account_key "STAGING" BIN_NAME.

End Script.

(** The value of a dictionary at a key it has. *)
Definition item (d : gmap string string) (k : string) : string :=
  default "" (d !! k).

(** The four files the script leaves in the working directory. *)
Definition saved (r : gmap string string) (f : filesystem) : filesystem :=
  <[item r "alias" +:+ ".key" := File (item r "key")]>
    (<[item r "alias" +:+ ".issuer.crt" := File (item r "issuer")]>
      (<[item r "alias" +:+ ".crt" := File (item r "certificate")]>
        (<["account.key" := File (item r "account_key")]> f))).

(** The four writes that end the script, as one computation. *)
Definition save_results (r : gmap string string) : M unit :=
  Path_write_text "account.key" (item r "account_key");;
  Path_write_text (item r "alias" +:+ ".crt") (item r "certificate");;
  Path_write_text (item r "alias" +:+ ".issuer.crt") (item r "issuer");;
  Path_write_text (item r "alias" +:+ ".key") (item r "key").

(** Their events. *)
Definition save_events (r : gmap string string) : list event :=
  [EvWrite "account.key" (item r "account_key");
   EvWrite (item r "alias" +:+ ".crt") (item r "certificate");
   EvWrite (item r "alias" +:+ ".issuer.crt") (item r "issuer");
   EvWrite (item r "alias" +:+ ".key") (item r "key")].

(** The names the script writes to. *)
Definition script_files : list string :=
  ["account.key"; "demo.example.com.crt"; "demo.example.com.issuer.crt";
   "demo.example.com.key"].

(** ** More vocabulary *)

(** Nothing is at [d] or below it. *)
Definition fresh_dir (d : string) (f : filesystem) : Prop :=
  forall p, inside d p = true -> f !! p = None.

(** The filesystem after the launch was attempted on [f]. *)
Definition after_launch (f : filesystem) (o : outcome) : filesystem :=
  match o with
  | NotLaunched _ => f
  | Exited _ _ after => after
  end.

(** A world with a file of the caller and a stale account key in the
    working directory. *)
Definition home_world : world :=
  World (<["PATH" := "/usr/bin"]> ∅)
        (<["/home/u/notes" := File "n"]> (<["account.key" := File "OLD"]> ∅))
        [].

(** A script state with an empty screen. *)
Definition home_script : script_world := ScriptWorld home_world [].


(** An issuance from the home world. *)
Definition home_run : (exn + gmap string string) * world :=
  letsgo which_finds realpath_same tmp_a issuing_agent
    "demo.example.com" "support@example.com" "demo-keyvault" "" "STAGING"
    BIN_NAME home_world.


(** The script with an agent that issues. *)
Definition script_run : (script_exn + unit) * script_world :=
  main which_finds realpath_same tmp_a issuing_agent home_script.

(** The script where a directory has the name of the certificate file. *)
Definition blocked_script : script_world :=
  ScriptWorld
    (World (<["PATH" := "/usr/bin"]> ∅)
           (<["demo.example.com.crt" := Dir]> ∅) [])
    [].

Definition script_blocked_run : (script_exn + unit) * script_world :=
  main which_finds realpath_same tmp_a issuing_agent blocked_script.

Definition script_first_result : gmap string string :=
  returned_by (first_issue which_finds realpath_same tmp_a issuing_agent
                 home_world).

(** * Properties *)

(** ** Alias derivation *)

Lemma prefix_comma (c : ascii) (s : string) :
  String.prefix "," (String c s) = Ascii.eqb c PyStr.comma.
Proof.
  change (String.prefix "," (String c s))
    with (if ascii_dec "," c then String.prefix "" s else false).
  destruct (Ascii.eqb_spec c PyStr.comma) as [->|Hne].
  - destruct (ascii_dec "," PyStr.comma) as [_|[]]; [by destruct s | done].
  - destruct (ascii_dec "," c) as [<-|_]; [by destruct Hne | done].
Qed.

Lemma split_head (s : string) :
  exists t, PyStr.split PyStr.comma s = before_first_comma s :: t.
Proof.
  unfold before_first_comma.
  induction s as [|c s IH].
  - simpl. eauto.
  - cbn [PyStr.split String.index]. rewrite prefix_comma.
    destruct (Ascii.eqb c PyStr.comma) eqn:Hc.
    + simpl. eauto.
    + destruct IH as (t & ->).
      destruct (String.index 0 "," s) as [i|]; simpl; eauto.
Qed.

Lemma replace_star (s : string) :
  PyStr.replace PyStr.star PyStr.underscore s = map_chars star_to_underscore s.
Proof.
  induction s as [|c s IH]; [done|]. simpl. rewrite IH. f_equal.
  unfold star_to_underscore.
  destruct (Ascii.eqb_spec c PyStr.star) as [->|Hne];
    destruct (ascii_dec _ _); done.
Qed.

Lemma main_domain_of_spec (d : string) :
  main_domain_of d = inr (deriveAlias_spec d).
Proof.
  unfold main_domain_of, deriveAlias_spec.
  destruct (split_head d) as (t & ->). cbn [subscript0].
  by rewrite replace_star.
Qed.

(** C2. The alias the code derives is the substring of the domain list
    before its first comma with every star replaced by an underscore; the
    wildcard example of the specification gives [_.example.com]. *)
Theorem alias_derivation (d : string) :
  main_domain_of d = inr (deriveAlias_spec d)
  /\ main_domain_of "*.example.com,example.com" = inr "_.example.com".
Proof. split; [apply main_domain_of_spec | reflexivity]. Qed.

(** ** Text-mode reading *)

Lemma universal_newlines_plain (s : string) :
  PyStr.contains PyStr.CR s = false -> PyStr.universal_newlines s = s.
Proof.
  induction s as [|c s IH]; [done|].
  cbn [PyStr.contains]. intros [Hc Hs]%orb_false_elim.
  cbn [PyStr.universal_newlines]. rewrite Hc. by rewrite IH.
Qed.

Lemma universal_newlines_clean_step (s : string) :
  PyStr.contains PyStr.CR (PyStr.universal_newlines s) = false
  /\ forall c,
       PyStr.contains PyStr.CR (PyStr.universal_newlines (String c s)) = false.
Proof.
  induction s as [|a s [IH1 IH2]].
  - split; [done|]. intros c. cbn [PyStr.universal_newlines].
    destruct (Ascii.eqb c PyStr.CR) eqn:Hc; [done|].
    cbn [PyStr.contains]. by rewrite Hc.
  - split; [apply IH2|]. intros c.
    cbn [PyStr.universal_newlines].
    destruct (Ascii.eqb c PyStr.CR) eqn:Hc.
    + destruct (Ascii.eqb a PyStr.LF) eqn:Ha.
      * cbn [PyStr.contains]. by rewrite IH1.
      * cbn [PyStr.contains]. specialize (IH2 a).
        cbn [PyStr.universal_newlines] in IH2. by rewrite IH2.
    + cbn [PyStr.contains]. rewrite Hc. specialize (IH2 a).
      cbn [PyStr.universal_newlines] in IH2. by rewrite IH2.
Qed.

Lemma universal_newlines_clean (s : string) :
  PyStr.contains PyStr.CR (PyStr.universal_newlines s) = false.
Proof. apply universal_newlines_clean_step. Qed.

Lemma text_of_file (f : filesystem) (p c : string) :
  f !! p = Some (File c) ->
  text_or_empty f p = PyStr.universal_newlines c.
Proof. unfold text_or_empty, text_of. by intros ->. Qed.

Lemma first_error_none (f : filesystem) (l : list string) (p : string) :
  first_error f l = None -> p ∈ l -> exists c, f !! p = Some (File c).
Proof.
  induction l as [|h l IH]; [by intros _ ?%elem_of_nil|].
  simpl. destruct (read_error f h) as [e|] eqn:Hh; [done|].
  intros Hl [Heq|Hp]%elem_of_cons; [subst h|by apply IH].
  unfold read_error in Hh. destruct (f !! p) as [[|c|]|]; [done| |done..].
  by exists c.
Qed.

Lemma result_dict_lookup (alias cert key issuer account_key : string) :
  let r := result_dict alias cert key issuer account_key in
  r !! "alias" = Some alias
  /\ r !! "certificate" = Some cert
  /\ r !! "key" = Some key
  /\ r !! "issuer" = Some issuer
  /\ r !! "account_key" = Some account_key.
Proof. unfold result_dict. cbv zeta. by simplify_map_eq. Qed.

(** ** Facts about the filesystem and the log *)

Lemma inside_self (d : string) : inside d d = true.
Proof. unfold inside. by rewrite String.eqb_refl. Qed.

Lemma rmtree_inside (d p : string) (f : filesystem) :
  inside d p = true -> rmtree d f !! p = None.
Proof.
  intros Hin. unfold rmtree. apply map_lookup_filter_None. right.
  intros x _. cbn. by rewrite Hin.
Qed.

Lemma appended_app (w w' : world) (evs : list event) :
  log w' = log w ++ evs -> appended w w' = evs.
Proof. intros H. unfold appended. by rewrite H, drop_app_length. Qed.

Lemma appended_same (w : world) : appended w w = [].
Proof. unfold appended. by rewrite drop_all. Qed.

Lemma filter_disjoint (p q : event -> bool) (l : list event) :
  (forall e, q e = true -> p e = false) ->
  forallb q l = true -> List.filter p l = [].
Proof.
  intros Hpq. induction l as [|e l IH]; [done|]. simpl.
  intros [He Hl]%andb_prop. rewrite (Hpq e He). auto.
Qed.

Lemma append_ne (d s : string) : s <> "" -> d +:+ s <> d.
Proof.
  intros Hs. induction d as [|a d IH].
  - exact Hs.
  - intros [=]. by apply IH.
Qed.

Lemma overlay_keys_nodup
    (domain account_email keyvault ca_dir tmpdir main_domain : string) :
  NoDup (overlay domain account_email keyvault ca_dir tmpdir main_domain).*1.
Proof. apply (bool_decide_unpack _). vm_compute. exact I. Qed.

Lemma overlaid_overlay (ov : list (string * string)) (inh : environment)
    (k v : string) :
  NoDup ov.*1 -> (k, v) ∈ ov -> overlaid ov inh !! k = Some v.
Proof.
  intros Hnd Hin. unfold overlaid. apply lookup_union_Some_l.
  by apply elem_of_list_to_map_1.
Qed.

Lemma overlaid_inherited (ov : list (string * string)) (inh : environment)
    (k : string) :
  k ∉ ov.*1 -> overlaid ov inh !! k = inh !! k.
Proof.
  intros Hk. unfold overlaid. rewrite lookup_union_r; [done|].
  by apply not_elem_of_list_to_map_1.
Qed.







Lemma read_events_reads (f : filesystem) (paths : list string) :
  forallb is_read (read_events f paths) = true.
Proof.
  induction paths as [|p ps IH]; [done|]. simpl.
  by destruct (read_error f p).
Qed.

(** ** Entries of a directory *)

Lemma append_assoc (a b c : string) : (a +:+ b) +:+ c = a +:+ (b +:+ c).
Proof.
  induction a as [|x a IH]; [reflexivity|].
  change (String x ((a +:+ b) +:+ c) = String x (a +:+ (b +:+ c))).
  by rewrite IH.
Qed.

Lemma strip_prefix_app (pre s : string) :
  strip_prefix pre (pre +:+ s) = Some s.
Proof.
  induction pre as [|a pre IH]; [reflexivity|].
  change (String a pre +:+ s) with (String a (pre +:+ s)).
  cbn [strip_prefix]. by rewrite Ascii.eqb_refl.
Qed.

Lemma contains_app (c : ascii) (a b : string) :
  PyStr.contains c (a +:+ b) = PyStr.contains c a || PyStr.contains c b.
Proof.
  induction a as [|x a IH]; [reflexivity|].
  change (String x a +:+ b) with (String x (a +:+ b)).
  cbn [PyStr.contains]. by rewrite IH, orb_assoc.
Qed.

Lemma truthy_app (a b : string) :
  PyStr.truthy b = true -> PyStr.truthy (a +:+ b) = true.
Proof. by destruct a. Qed.

Lemma relative_name (x s : string) :
  PyStr.contains "/" x = false -> PyStr.startswith "/" s = false ->
  PyStr.startswith "/" (x +:+ s) = false.
Proof.
  intros Hx Hs. destruct x as [|a x]; [exact Hs|].
  change (String a x +:+ s) with (String a (x +:+ s)).
  unfold PyStr.startswith. cbn [String.prefix].
  cbn [PyStr.contains] in Hx. apply orb_false_elim in Hx as [Ha _].
  destruct (ascii_dec "/" a) as [<-|]; [|done].
  by rewrite Ascii.eqb_refl in Ha.
Qed.

(** A name without slash joined to a directory is an entry of it. *)
Lemma entry_of_joinpath (d x ext : string) :
  PyStr.contains "/" x = false -> PyStr.contains "/" ext = false ->
  PyStr.startswith "/" ext = false -> PyStr.truthy ext = true ->
  entry_of d (joinpath d (x +:+ ext)) = true.
Proof.
  intros Hx He Hs Ht. unfold joinpath.
  rewrite (relative_name _ _ Hx Hs). unfold entry_of.
  change (d ++ "/" ++ x +:+ ext)%string with (d +:+ ("/" +:+ (x +:+ ext))).
  change (d ++ "/")%string with (d +:+ "/").
  rewrite <- append_assoc, strip_prefix_app.
  by rewrite (truthy_app _ _ Ht), contains_app, Hx, He.
Qed.

Lemma entry_of_keyfile (d : string) :
  entry_of d (joinpath d ACCOUNT_KEYFILE) = true.
Proof. apply (entry_of_joinpath d "" ACCOUNT_KEYFILE); reflexivity. Qed.


Lemma seed_events_writes (account_key tmpdir : string) :
  forallb is_write (seed_events account_key tmpdir) = true.
Proof. unfold seed_events. by destruct (PyStr.truthy account_key). Qed.

(** ** One invocation *)

Section Invocation.

Variable shutil_which : string -> option string.
Variable realpath : string -> option string.
Variable mkdtemp_name : filesystem -> string.
Variable agent : list string -> environment -> filesystem -> outcome.

Lemma joinpath_keyfile (tmpdir : string) :
  joinpath tmpdir ACCOUNT_KEYFILE = tmpdir +:+ "/" +:+ ACCOUNT_KEYFILE.
Proof. reflexivity. Qed.

Lemma resolve_bin_pure (bin_name : string) (w : world) :
  (resolve_bin shutil_which realpath bin_name w).2 = w.
Proof.
  unfold resolve_bin, resolve_strict, pathlib_Path.
  destruct (String.eqb bin_name BIN_NAME); [|done].
  unfold mbind, M_bind.
  destruct (shutil_which bin_name) as [p|]; [|done]. simpl.
  destruct (realpath p); done.
Qed.

Lemma cmd_env_overlaid (inherited : environment)
    (domain account_email keyvault ca_dir tmpdir main_domain : string) :
  <["ACCOUNT_KEY_FILE" := joinpath tmpdir ACCOUNT_KEYFILE]>
    (<["FILENAME" := main_domain]>
      (<["OUTPUT_DIRECTORY" := tmpdir]>
        (<["CA_DIR" := ca_dir]>
          (<["DNS_AUTH_TOKEN_VAULT" := keyvault]>
            (<["ACCOUNT_EMAIL" := account_email]>
              (<["DOMAINS" := domain]> inherited))))))
  = overlaid (overlay domain account_email keyvault ca_dir tmpdir main_domain)
             inherited.
Proof.
  apply map_eq; intros k. unfold overlaid, overlay.
  rewrite lookup_union. cbn [list_to_map foldr uncurry fst snd].
  rewrite joinpath_keyfile.
  repeat (rewrite !lookup_insert; repeat case_decide; subst; try done).
  all: rewrite ?lookup_empty; by destruct (inherited !! _).
Qed.

Ltac norm_log :=
  repeat (progress cbn [fs log environ app fst snd] || rewrite <- app_assoc).

Ltac close_reads :=
  split; [ cbn [snd fs log environ]; rewrite <- ?app_assoc; reflexivity
         | reflexivity ].

(** The reads leave the filesystem alone, log only reads, and return the
    four texts or the exception of the first path that is no regular file. *)
Lemma read_artifacts_run (root main kf : string) (w : world) :
  let p1 := joinpath root (main +:+ ".crt") in
  let p2 := joinpath root (main +:+ ".key") in
  let p3 := joinpath root (main +:+ ".issuer.crt") in
  (read_artifacts root main kf w).2
    = World (environ w) (fs w)
        (log w ++ read_events (fs w) [p1; p2; p3; kf])
  /\ (read_artifacts root main kf w).1
     = match first_error (fs w) [p1; p2; p3; kf] with
       | Some e => inl e
       | None =>
           inr (text_or_empty (fs w) p1, text_or_empty (fs w) p2,
                text_or_empty (fs w) p3, text_or_empty (fs w) kf)
       end.
Proof.
  intros p1 p2 p3.
  unfold read_artifacts, read_text, mbind, M_bind, mret, M_ret, first_error,
    read_events, read_error, text_or_empty, text_of, emit.
  fold p1 p2 p3. cbn [fs log environ].
  destruct (fs w !! p1) as [[|c1|]|];
    [close_reads| |close_reads|destruct (under_file _ p1); close_reads].
  cbn [fs log environ].
  destruct (fs w !! p2) as [[|c2|]|];
    [close_reads| |close_reads|destruct (under_file _ p2); close_reads].
  cbn [fs log environ].
  destruct (fs w !! p3) as [[|c3|]|];
    [close_reads| |close_reads|destruct (under_file _ p3); close_reads].
  cbn [fs log environ].
  destruct (fs w !! kf) as [[|c4|]|];
    [close_reads..|destruct (under_file _ kf); close_reads].
Qed.

Lemma letsgo_resolved
    (domain account_email keyvault account_key ca_dir bin_name : string)
    (w : world) (bin_path : string) :
  (resolve_bin shutil_which realpath bin_name w).1 = inr bin_path ->
  letsgo shutil_which realpath mkdtemp_name agent
    domain account_email keyvault account_key ca_dir bin_name w
  = let tmpdir := mkdtemp_name (fs w) in
    let alias := deriveAlias_spec domain in
    let env :=
      overlaid (overlay domain account_email keyvault ca_dir tmpdir alias)
               (environ w) in
    let f1 := seeded account_key tmpdir (fs w) in
    let pre :=
      log w ++ EvMkdtemp tmpdir :: seed_events account_key tmpdir
            ++ [EvRun [bin_path] env f1] in
    match agent [bin_path] env f1 with
    | NotLaunched c =>
        (inl (OSError c bin_path),
         World (environ w) (rmtree tmpdir f1) (pre ++ [EvRmtree tmpdir]))
    | Exited rc out f2 =>
        if rc =? 0 then
          (match first_error f2 (artifact_paths tmpdir alias) with
           | Some e => inl e
           | None =>
               inr (result_dict alias
                      (text_or_empty f2 (joinpath tmpdir (alias +:+ ".crt")))
                      (text_or_empty f2 (joinpath tmpdir (alias +:+ ".key")))
                      (text_or_empty f2
                         (joinpath tmpdir (alias +:+ ".issuer.crt")))
                      (text_or_empty f2 (joinpath tmpdir ACCOUNT_KEYFILE)))
           end,
           World (environ w) (rmtree tmpdir f2)
             (pre ++ read_events f2 (artifact_paths tmpdir alias)
                  ++ [EvRmtree tmpdir]))
        else
          (inl (CalledProcessError rc [bin_path] out),
           World (environ w) (rmtree tmpdir f2) (pre ++ [EvRmtree tmpdir]))
    end.
Proof.
  intros Hres. cbv zeta.
  unfold letsgo. unfold mbind at 1, M_bind at 1.
  pose proof (resolve_bin_pure bin_name w) as Hw.
  destruct (resolve_bin shutil_which realpath bin_name w) as [[e|b] w1];
    simpl in Hres, Hw; [done|]. injection Hres as ->. subst w1.
  unfold mbind, M_bind, os_environ_copy, lift.
  rewrite main_domain_of_spec.
  unfold TemporaryDirectory, in_workspace.
  rewrite cmd_env_overlaid.
  set (tmpdir := mkdtemp_name (fs w)).
  set (alias := deriveAlias_spec domain).
  set (env := overlaid _ _).
  unfold seeded, seed_events.
  destruct (PyStr.truthy account_key);
    unfold write_text, check_output, mbind, M_bind, mret, M_ret, emit, set_fs;
    cbn [fs log environ hd];
    (destruct (agent [bin_path] env _) as [c|rc out f2];
     [ norm_log; reflexivity | ]);
    (destruct (rc =? 0); [ | norm_log; reflexivity ]);
    match goal with
    | |- context [read_artifacts ?r ?m ?k ?w0] =>
        destruct (read_artifacts_run r m k w0) as [H2 H1];
        destruct (read_artifacts r m k w0) as [res w2];
        cbn [fst snd] in H1, H2; subst res w2
    end;
    cbn [fs log environ]; unfold artifact_paths;
    (destruct (first_error f2 _) as [e|]; norm_log; reflexivity).
Qed.

Lemma letsgo_unresolved
    (domain account_email keyvault account_key ca_dir bin_name : string)
    (w : world) (e : exn) :
  (resolve_bin shutil_which realpath bin_name w).1 = inl e ->
  letsgo shutil_which realpath mkdtemp_name agent
    domain account_email keyvault account_key ca_dir bin_name w
  = (inl e, w).
Proof.
  intros Hres. unfold letsgo. unfold mbind at 1, M_bind at 1.
  pose proof (resolve_bin_pure bin_name w) as Hw.
  destruct (resolve_bin shutil_which realpath bin_name w) as [[e'|b] w1];
    simpl in Hres, Hw; [|done]. by simplify_eq.
Qed.

(** The shape of a resolved invocation: what is left of the world, and the
    events appended, with the reads [mid] of the artifact stage. *)
Lemma letsgo_resolved_world
    (domain account_email keyvault account_key ca_dir bin_name : string)
    (w : world) (bin_path : string) :
  (resolve_bin shutil_which realpath bin_name w).1 = inr bin_path ->
  let tmpdir := mkdtemp_name (fs w) in
  let env :=
    overlaid (overlay domain account_email keyvault ca_dir tmpdir
                (deriveAlias_spec domain)) (environ w) in
  let f1 := seeded account_key tmpdir (fs w) in
  exists (f' : filesystem) (mid : list event),
    (letsgo shutil_which realpath mkdtemp_name agent
       domain account_email keyvault account_key ca_dir bin_name w).2
    = World (environ w) (rmtree tmpdir f')
        (log w ++ EvMkdtemp tmpdir :: seed_events account_key tmpdir
               ++ EvRun [bin_path] env f1 :: mid ++ [EvRmtree tmpdir])
    /\ forallb is_read mid = true.
Proof.
  intros Hres tmpdir env f1.
  rewrite (letsgo_resolved _ _ _ _ _ _ _ _ Hres). cbv zeta.
  fold tmpdir env f1.
  destruct (agent [bin_path] env f1) as [c|rc out f2];
    [ exists f1, []
    | destruct (rc =? 0);
      [ exists f2,
          (read_events f2 (artifact_paths tmpdir (deriveAlias_spec domain)))
      | exists f2, [] ] ];
    (split; [ norm_log; reflexivity | ]); try reflexivity.
  apply read_events_reads.
Qed.

(** ** Workspace cleanup *)


(** ** The environment of the child *)

(** C3. When the invocation reaches the process stage, the child is run
    exactly once, and its environment is the inherited one overlaid with
    the seven keys of the request: each of the seven is bound to its
    request-derived value, shadowing an inherited binding of the same name,
    every other key is bound as it was inherited, so none is removed; the
    caller's own environment is left as it was. *)
Theorem child_environment
    (domain account_email keyvault account_key ca_dir bin_name : string)
    (w : world) (bin_path : string) :
  (resolve_bin shutil_which realpath bin_name w).1 = inr bin_path ->
  let tmpdir := mkdtemp_name (fs w) in
  let ov := overlay domain account_email keyvault ca_dir tmpdir
              (deriveAlias_spec domain) in
  let w' := (letsgo shutil_which realpath mkdtemp_name agent
               domain account_email keyvault account_key ca_dir bin_name w).2 in
  exists (env : environment) (before : filesystem),
    List.filter is_run (appended w w') = [EvRun [bin_path] env before]
    /\ env = overlaid ov (environ w)
    /\ ov.*1 = ["DOMAINS"; "ACCOUNT_EMAIL"; "DNS_AUTH_TOKEN_VAULT"; "CA_DIR";
               "OUTPUT_DIRECTORY"; "FILENAME"; "ACCOUNT_KEY_FILE"]
    /\ (forall k v, (k, v) ∈ ov -> env !! k = Some v)
    /\ (forall k, k ∉ ov.*1 -> env !! k = environ w !! k)
    /\ (forall k, is_Some (environ w !! k) -> is_Some (env !! k))
    /\ environ w' = environ w.
Proof.
  intros Hres tmpdir ov w'. subst w'.
  destruct (letsgo_resolved_world domain account_email keyvault account_key
              ca_dir bin_name w bin_path Hres) as (f' & mid & Hw & Hmid).
  fold tmpdir ov in Hw. rewrite Hw. erewrite appended_app by reflexivity.
  eexists _, _. split.
  { cbn [List.filter is_run]. rewrite List.filter_app.
    rewrite (filter_disjoint is_run is_write) by
      (by intros [] || apply seed_events_writes).
    cbn [List.filter is_run app]. rewrite List.filter_app.
    rewrite (filter_disjoint is_run is_read) by (by intros [] || done).
    reflexivity. }
  split; [reflexivity|]. split; [reflexivity|].
  split; [intros k v; apply overlaid_overlay, overlay_keys_nodup|].
  split; [apply overlaid_inherited|].
  split; [|reflexivity].
  intros k [x Hx]. unfold overlaid. rewrite lookup_union.
  rewrite Hx. destruct (list_to_map ov !! k); by eexists.
Qed.

(** ** Failure of the process *)


(** ** Missing artifacts *)


(** ** Seeding the account key *)

(** C7. The first things a resolved invocation does are: make the
    workspace, write a non-empty account key, unchanged, to [account.key]
    in it, and only then run the child, which starts on a filesystem
    holding that file.  With an empty account key nothing is written: the
    child starts on the filesystem of the caller plus the new directory,
    and [account.key] is there only if it was before.  No write follows
    the run. *)
Theorem account_key_seeded
    (domain account_email keyvault account_key ca_dir bin_name : string)
    (w : world) (bin_path : string) :
  (resolve_bin shutil_which realpath bin_name w).1 = inr bin_path ->
  let tmpdir := mkdtemp_name (fs w) in
  let keyfile := tmpdir +:+ "/" +:+ ACCOUNT_KEYFILE in
  let w' := (letsgo shutil_which realpath mkdtemp_name agent
               domain account_email keyvault account_key ca_dir bin_name w).2 in
  exists (env : environment) (before : filesystem) (rest : list event),
    (account_key <> "" ->
       appended w w'
       = EvMkdtemp tmpdir :: EvWrite keyfile account_key
           :: EvRun [bin_path] env before :: rest
       /\ before !! keyfile = Some (File account_key))
    /\ (account_key = "" ->
       appended w w' = EvMkdtemp tmpdir :: EvRun [bin_path] env before :: rest
       /\ before = <[tmpdir := Dir]> (fs w)
       /\ before !! keyfile = fs w !! keyfile)
    /\ List.filter is_write rest = [].
Proof.
  intros Hres tmpdir keyfile w'. subst w'.
  destruct (letsgo_resolved_world domain account_email keyvault account_key
              ca_dir bin_name w bin_path Hres) as (f' & mid & Hw & Hmid).
  fold tmpdir in Hw. rewrite Hw. erewrite appended_app by reflexivity.
  exists (overlaid (overlay domain account_email keyvault ca_dir tmpdir
                     (deriveAlias_spec domain)) (environ w)),
    (seeded account_key tmpdir (fs w)), (mid ++ [EvRmtree tmpdir]).
  unfold seed_events, seeded. rewrite joinpath_keyfile. fold tmpdir keyfile.
  split; [|split].
  - intros Hne. destruct account_key; [done|]. cbn [PyStr.truthy app].
    split; [reflexivity|]. apply lookup_insert_eq.
  - intros ->. cbn [PyStr.truthy app].
    split; [reflexivity|]. split; [reflexivity|].
    apply lookup_insert_ne. symmetry. by apply append_ne.
  - rewrite List.filter_app.
    rewrite (filter_disjoint is_write is_read) by (by intros [] || done).
    reflexivity.
Qed.

(** ** No validation of the domain list *)

(** C10. An empty domain list is not rejected: deriving the alias does not
    raise and gives the empty string, and a resolved invocation goes on to
    run the child, with [DOMAINS] and [FILENAME] both set to the empty
    string. *)
Theorem empty_domain_accepted
    (account_email keyvault account_key ca_dir bin_name : string)
    (w : world) (bin_path : string) :
  (resolve_bin shutil_which realpath bin_name w).1 = inr bin_path ->
  let w' := (letsgo shutil_which realpath mkdtemp_name agent
               "" account_email keyvault account_key ca_dir bin_name w).2 in
  main_domain_of "" = inr ""
  /\ exists (env : environment) (before : filesystem),
       In (EvRun [bin_path] env before) (appended w w')
       /\ env !! "FILENAME" = Some ""
       /\ env !! "DOMAINS" = Some "".
Proof.
  intros Hres w'. subst w'. split; [reflexivity|].
  destruct (letsgo_resolved_world "" account_email keyvault account_key
              ca_dir bin_name w bin_path Hres) as (f' & mid & Hw & Hmid).
  rewrite Hw. erewrite appended_app by reflexivity.
  eexists _, _. split.
  { right. apply in_or_app. right. by left. }
  split; (apply overlaid_overlay; [apply overlay_keys_nodup|]);
    unfold overlay; set_solver.
Qed.

(** ** What a result holds *)

(** A result is returned only after a resolved binary exited with status 0
    on a workspace in which all four paths are regular files. *)
Lemma letsgo_returns
    (domain account_email keyvault account_key ca_dir bin_name : string)
    (w : world) (r : gmap string string) :
  (letsgo shutil_which realpath mkdtemp_name agent
     domain account_email keyvault account_key ca_dir bin_name w).1 = inr r ->
  let tmpdir := mkdtemp_name (fs w) in
  let alias := deriveAlias_spec domain in
  let env :=
    overlaid (overlay domain account_email keyvault ca_dir tmpdir alias)
             (environ w) in
  exists (bin_path out : string) (after : filesystem),
    (resolve_bin shutil_which realpath bin_name w).1 = inr bin_path
    /\ agent [bin_path] env (seeded account_key tmpdir (fs w))
       = Exited 0 out after
    /\ first_error after (artifact_paths tmpdir alias) = None
    /\ r = result_dict alias
             (text_or_empty after (joinpath tmpdir (alias +:+ ".crt")))
             (text_or_empty after (joinpath tmpdir (alias +:+ ".key")))
             (text_or_empty after (joinpath tmpdir (alias +:+ ".issuer.crt")))
             (text_or_empty after (joinpath tmpdir ACCOUNT_KEYFILE)).
Proof.
  intros Hr tmpdir alias env.
  destruct (resolve_bin shutil_which realpath bin_name w).1 as [e|bin_path]
    eqn:Hres.
  { by rewrite (letsgo_unresolved _ _ _ _ _ _ _ _ Hres) in Hr. }
  rewrite (letsgo_resolved _ _ _ _ _ _ _ _ Hres) in Hr. cbv zeta in Hr.
  fold tmpdir alias env in Hr.
  destruct (agent [bin_path] env _) as [code|rc out after] eqn:Hl; [done|].
  destruct (rc =? 0) eqn:Hrc; [|done].
  apply Z.eqb_eq in Hrc as ->. cbn [fst] in Hr.
  destruct (first_error after _) as [e|] eqn:Hfe; [done|].
  exists bin_path, out, after. by simplify_eq.
Qed.

(** C9, as the code has it.  When [letsgo] returns a result, each of the
    four paths read is a text file in the filesystem the child left, and
    each returned string is the text-mode content of its file; the alias is
    the derived one.  Nothing requires the contents to be non-empty.  The
    account key file is an entry of the workspace; the other three are
    when the alias has no slash. *)
Theorem result_reflects_files
    (domain account_email keyvault account_key ca_dir bin_name : string)
    (w : world) (r : gmap string string) :
  (letsgo shutil_which realpath mkdtemp_name agent
     domain account_email keyvault account_key ca_dir bin_name w).1 = inr r ->
  let tmpdir := mkdtemp_name (fs w) in
  let alias := deriveAlias_spec domain in
  let env :=
    overlaid (overlay domain account_email keyvault ca_dir tmpdir alias)
             (environ w) in
  exists (bin_path out : string) (after : filesystem) (c1 c2 c3 c4 : string),
    agent [bin_path] env (seeded account_key tmpdir (fs w))
      = Exited 0 out after
    /\ after !! joinpath tmpdir (alias +:+ ".crt") = Some (File c1)
    /\ after !! joinpath tmpdir (alias +:+ ".key") = Some (File c2)
    /\ after !! joinpath tmpdir (alias +:+ ".issuer.crt") = Some (File c3)
    /\ after !! joinpath tmpdir ACCOUNT_KEYFILE = Some (File c4)
    /\ r !! "alias" = Some alias
    /\ r !! "certificate" = Some (PyStr.universal_newlines c1)
    /\ r !! "key" = Some (PyStr.universal_newlines c2)
    /\ r !! "issuer" = Some (PyStr.universal_newlines c3)
    /\ r !! "account_key" = Some (PyStr.universal_newlines c4)
    /\ entry_of tmpdir (joinpath tmpdir ACCOUNT_KEYFILE) = true
    /\ (PyStr.contains "/" alias = false ->
        entry_of tmpdir (joinpath tmpdir (alias +:+ ".crt")) = true
        /\ entry_of tmpdir (joinpath tmpdir (alias +:+ ".key")) = true
        /\ entry_of tmpdir (joinpath tmpdir (alias +:+ ".issuer.crt")) = true).
Proof.
  intros Hr tmpdir alias env.
  destruct (letsgo_returns _ _ _ _ _ _ _ _ Hr)
    as (bin_path & out & after & _ & Hl & Hfe & ->).
  fold tmpdir alias env in Hl, Hfe |- *.
  destruct (first_error_none _ _ (joinpath tmpdir (alias +:+ ".crt")) Hfe)
    as [c1 H1]; [set_solver|].
  destruct (first_error_none _ _ (joinpath tmpdir (alias +:+ ".key")) Hfe)
    as [c2 H2]; [set_solver|].
  destruct (first_error_none _ _ (joinpath tmpdir (alias +:+ ".issuer.crt")) Hfe)
    as [c3 H3]; [set_solver|].
  destruct (first_error_none _ _ (joinpath tmpdir ACCOUNT_KEYFILE) Hfe)
    as [c4 H4]; [set_solver|].
  exists bin_path, out, after, c1, c2, c3, c4.
  rewrite <- (text_of_file _ _ _ H1), <- (text_of_file _ _ _ H2),
    <- (text_of_file _ _ _ H3), <- (text_of_file _ _ _ H4).
  repeat (split; [done|]).
  destruct (result_dict_lookup alias
              (text_or_empty after (joinpath tmpdir (alias +:+ ".crt")))
              (text_or_empty after (joinpath tmpdir (alias +:+ ".key")))
              (text_or_empty after (joinpath tmpdir (alias +:+ ".issuer.crt")))
              (text_or_empty after (joinpath tmpdir ACCOUNT_KEYFILE)))
    as (Ra & Rc & Rk & Ri & Rak).
  repeat (split; [done|]). split; [apply entry_of_keyfile|].
  intros Ha. by repeat split; apply entry_of_joinpath.
Qed.

(** C8, as the code has it.  The account key of a result is the text-mode
    reading of the workspace key file as the child left it: CR LF and CR
    become LF.  So, when the child leaves a seeded key file as it found it,
    a supplied non-empty account key without carriage return comes back
    unchanged; and a returned account key never holds a carriage return, so
    a key obtained from one call is stable when passed to the next. *)
Theorem account_key_read_back
    (domain account_email keyvault account_key ca_dir bin_name : string)
    (w : world) (r : gmap string string) :
  (letsgo shutil_which realpath mkdtemp_name agent
     domain account_email keyvault account_key ca_dir bin_name w).1 = inr r ->
  let tmpdir := mkdtemp_name (fs w) in
  let keyfile := tmpdir +:+ "/" +:+ ACCOUNT_KEYFILE in
  let env :=
    overlaid (overlay domain account_email keyvault ca_dir tmpdir
                (deriveAlias_spec domain)) (environ w) in
  let before := seeded account_key tmpdir (fs w) in
  exists (bin_path out : string) (after : filesystem) (c returned : string),
    agent [bin_path] env before = Exited 0 out after
    /\ after !! keyfile = Some (File c)
    /\ r !! "account_key" = Some returned
    /\ returned = PyStr.universal_newlines c
    /\ PyStr.contains PyStr.CR returned = false
    /\ (account_key <> "" ->
        after !! keyfile = before !! keyfile ->
        c = account_key
        /\ (PyStr.contains PyStr.CR account_key = false ->
            returned = account_key)).
Proof.
  intros Hr tmpdir keyfile env before.
  destruct (letsgo_returns _ _ _ _ _ _ _ _ Hr)
    as (bin_path & out & after & _ & Hl & Hfe & ->).
  fold tmpdir env before in Hl, Hfe |- *.
  destruct (first_error_none _ _ (joinpath tmpdir ACCOUNT_KEYFILE) Hfe)
    as [c Hc]; [set_solver|].
  rewrite (text_of_file _ _ _ Hc). rewrite joinpath_keyfile in Hc.
  fold keyfile in Hc.
  exists bin_path, out, after, c, (PyStr.universal_newlines c).
  split; [done|]. split; [done|].
  split; [apply result_dict_lookup|]. split; [done|].
  split; [apply universal_newlines_clean|].
  intros Hne Hkept. rewrite Hc in Hkept.
  assert (c = account_key) as ->.
  { subst before. unfold seeded in Hkept. rewrite joinpath_keyfile in Hkept.
    fold tmpdir keyfile in Hkept.
    destruct account_key; [done|]. cbn [PyStr.truthy] in Hkept.
    rewrite lookup_insert_eq in Hkept. by simplify_eq. }
  split; [done|]. apply universal_newlines_plain.
Qed.

(** ** Resolution of the binary *)

(** C4, as the code has it.  A name other than the default is used as it
    is given, unchecked: the invocation makes a workspace and attempts the
    launch whatever the name is.  For the default name, a successful lookup
    followed by a successful strict resolution gives the resolved path, and
    a failing strict resolution raises [FileNotFoundError].  Whenever
    resolution raises, the invocation ends there: the filesystem is as it
    was and no event - no workspace, no run - was added. *)
Theorem resolution_by_design
    (domain account_email keyvault account_key ca_dir bin_name : string)
    (w : world) :
  let run := letsgo shutil_which realpath mkdtemp_name agent
               domain account_email keyvault account_key ca_dir bin_name w in
  (bin_name <> BIN_NAME ->
     resolve_bin shutil_which realpath bin_name w = (inr bin_name, w)
     /\ In (EvMkdtemp (mkdtemp_name (fs w))) (appended w run.2)
     /\ exists env before,
          In (EvRun [bin_name] env before) (appended w run.2))
  /\ (forall p q,
        bin_name = BIN_NAME ->
        shutil_which BIN_NAME = Some p -> realpath p = Some q ->
        resolve_bin shutil_which realpath bin_name w = (inr q, w))
  /\ (forall p,
        bin_name = BIN_NAME ->
        shutil_which BIN_NAME = Some p -> realpath p = None ->
        resolve_bin shutil_which realpath bin_name w
        = (inl (FileNotFoundError p), w))
  /\ (forall e,
        (resolve_bin shutil_which realpath bin_name w).1 = inl e ->
        run = (inl e, w) /\ appended w run.2 = []).
Proof.
  intros run. subst run. split; [|split; [|split]].
  - intros Hne.
    assert (resolve_bin shutil_which realpath bin_name w = (inr bin_name, w))
      as Hres.
    { unfold resolve_bin. by apply String.eqb_neq in Hne as ->. }
    split; [done|].
    destruct (letsgo_resolved_world domain account_email keyvault account_key
                ca_dir bin_name w bin_name) as (f' & mid & Hw & Hmid).
    { by rewrite Hres. }
    rewrite Hw. erewrite appended_app by reflexivity.
    split; [by left|]. eexists _, _.
    right. apply in_or_app. right. by left.
  - intros p q -> Hp Hq. unfold resolve_bin, resolve_strict, pathlib_Path.
    rewrite String.eqb_refl, Hp. unfold mbind, M_bind, mret, M_ret.
    by rewrite Hq.
  - intros p -> Hp Hq. unfold resolve_bin, resolve_strict, pathlib_Path.
    rewrite String.eqb_refl, Hp. unfold mbind, M_bind, mret, M_ret, raise.
    by rewrite Hq.
  - intros e Hres. rewrite (letsgo_unresolved _ _ _ _ _ _ _ _ Hres).
    split; [done|]. apply appended_same.
Qed.

(** The test [bin_path is None] of line 25 comes too late: when the lookup
    of the default name finds nothing, [pathlib.Path(None)] has already
    raised [TypeError]. *)
Lemma default_name_lookup_miss (w : world) :
  shutil_which BIN_NAME = None ->
  resolve_bin shutil_which realpath BIN_NAME w = (inl TypeError, w).
Proof. intros Hmiss. unfold resolve_bin. cbn. by rewrite Hmiss. Qed.

End Invocation.

(** * The theorems at concrete inputs *)

Lemma demo_resolved :
  (resolve_bin which_finds realpath_same BIN_NAME demo_world).1
  = inr "/usr/bin/letsgo".
Proof. reflexivity. Defined.


Lemma child_environment_witness :
  (resolve_bin which_finds realpath_same BIN_NAME demo_world).1
  = inr "/usr/bin/letsgo"
  /\ exists (env : environment) (before : filesystem),
       List.filter is_run (appended demo_world demo_run.2)
       = [EvRun ["/usr/bin/letsgo"] env before]
       /\ environ demo_world !! "FILENAME" = Some "inherited"
       /\ env !! "FILENAME" = Some "demo.example.com"
       /\ env !! "PATH" = Some "/usr/bin".
Proof.
  split; [exact demo_resolved|].
  destruct (child_environment which_finds realpath_same tmp_a issuing_agent
              "demo.example.com" "support@example.com" "demo-keyvault" ""
              "STAGING" BIN_NAME demo_world "/usr/bin/letsgo" demo_resolved)
    as (env & before & Hrun & _ & _ & Hov & Hinh & _).
  exists env, before. split; [exact Hrun|]. split; [reflexivity|].
  split.
  - apply Hov. apply list_elem_of_In. vm_compute. auto 10.
  - rewrite Hinh; [reflexivity|].
    rewrite list_elem_of_In. vm_compute. intuition discriminate.
Defined.




(** The same failure without leaving the workspace: for the alias
    [account], [{alias}.key] is the account key file.  An agent that
    writes no private key is not reported: the account key supplied comes
    back as the private key. *)
Example private_key_is_account_key :
  account_alias_run.1
  = inr (result_dict "account" "CERT" "KEY0" "ISSUER" "KEY0").
Proof. reflexivity. Qed.

(** A path below a regular file: the read fails with
    [NotADirectoryError]. *)
Example read_below_key_file :
  below_key_run.1 = inl (NotADirectoryError "/tmp/tmpa/account.key/x.crt").
Proof. reflexivity. Qed.

Lemma account_key_seeded_witness :
  (resolve_bin which_finds realpath_same BIN_NAME demo_world).1
  = inr "/usr/bin/letsgo"
  /\ exists (env : environment) (before : filesystem) (rest : list event),
       appended demo_world crlf_run.2
       = EvMkdtemp "/tmp/tmpa" :: EvWrite tmp_a_key crlf_key
           :: EvRun ["/usr/bin/letsgo"] env before :: rest
       /\ before !! tmp_a_key = Some (File crlf_key).
Proof.
  split; [exact demo_resolved|].
  destruct (account_key_seeded which_finds realpath_same tmp_a issuing_agent
              "demo.example.com" "support@example.com" "demo-keyvault"
              crlf_key "STAGING" BIN_NAME demo_world "/usr/bin/letsgo"
              demo_resolved) as (env & before & rest & Hseed & _).
  exists env, before, rest. apply Hseed. discriminate.
Defined.

Lemma empty_domain_accepted_witness :
  (resolve_bin which_finds realpath_same BIN_NAME demo_world).1
  = inr "/usr/bin/letsgo"
  /\ exists (env : environment) (before : filesystem),
       In (EvRun ["/usr/bin/letsgo"] env before)
          (appended demo_world
             (letsgo which_finds realpath_same tmp_a issuing_agent
                "" "support@example.com" "demo-keyvault" "" "STAGING"
                BIN_NAME demo_world).2)
       /\ env !! "FILENAME" = Some "".
Proof.
  split; [exact demo_resolved|].
  destruct (empty_domain_accepted which_finds realpath_same tmp_a
              issuing_agent "support@example.com" "demo-keyvault" ""
              "STAGING" BIN_NAME demo_world "/usr/bin/letsgo"
              demo_resolved) as (_ & env & before & Hrun & Hname & _).
  exists env, before. split; [exact Hrun | exact Hname].
Defined.

Lemma demo_returned : demo_run.1 = inr (returned_by demo_run).
Proof. reflexivity. Defined.

Lemma reissue_returned : reissue_run.1 = inr (returned_by reissue_run).
Proof. reflexivity. Defined.

Lemma result_reflects_files_witness :
  demo_run.1 = inr (returned_by demo_run)
  /\ exists c1 : string,
       returned_by demo_run !! "certificate"
       = Some (PyStr.universal_newlines c1).
Proof.
  split; [exact demo_returned|].
  destruct (result_reflects_files which_finds realpath_same tmp_a
              issuing_agent "demo.example.com" "support@example.com"
              "demo-keyvault" "" "STAGING" BIN_NAME demo_world
              (returned_by demo_run) demo_returned)
    as (_ & _ & _ & c1 & _ & _ & _ & _ & _ & _ & _ & _ & _ & Hcert & _).
  exists c1. exact Hcert.
Defined.

(** C9 fails as stated: an agent that exits with status 0 after writing
    four empty files makes [letsgo] return four empty strings. *)
Lemma hollow_result_empty :
  exists r : gmap string string,
    hollow_run.1 = inr r
    /\ r !! "certificate" = Some ""
    /\ r !! "key" = Some ""
    /\ r !! "issuer" = Some ""
    /\ r !! "account_key" = Some "".
Proof. exists (returned_by hollow_run). by vm_compute. Qed.

Lemma account_key_read_back_witness :
  reissue_run.1 = inr (returned_by reissue_run)
  /\ returned_by reissue_run !! "account_key" = Some "FRESH".
Proof.
  split; [exact reissue_returned|].
  destruct (account_key_read_back which_finds realpath_same tmp_a
              issuing_agent "demo.example.com" "support@example.com"
              "demo-keyvault" "FRESH" "STAGING" BIN_NAME demo_world
              (returned_by reissue_run) reissue_returned)
    as (bin_path & out & after & c & returned
        & Hl & Hc & Hr & Hret & _ & Hround).
  rewrite Hr. f_equal.
  assert (after
          = left_by (issuing_agent ["/usr/bin/letsgo"] demo_env
                       (seeded "FRESH" "/tmp/tmpa" (fs demo_world))))
    as Hafter.
  { vm_compute in Hl. injection Hl as _ <-. reflexivity. }
  destruct Hround as [_ Hsame]; [discriminate| |by apply Hsame].
  rewrite Hafter. reflexivity.
Defined.

(** C8 fails as stated: the agent leaves the seeded key file as it found
    it, with its CR LF line end, yet the account key returned has a bare
    LF: it is neither the supplied value nor the content of the file. *)
Lemma crlf_key_not_returned :
  exists (after : filesystem) (r : gmap string string),
    crlf_launch = Exited 0 "" after
    /\ seeded crlf_key "/tmp/tmpa" (fs demo_world) !! tmp_a_key
       = Some (File crlf_key)
    /\ after !! tmp_a_key = Some (File crlf_key)
    /\ crlf_run.1 = inr r
    /\ r !! "account_key" = Some lf_key
    /\ r !! "account_key" <> Some crlf_key.
Proof.
  exists (left_by crlf_launch), (returned_by crlf_run).
  repeat split; try reflexivity.
  vm_compute. discriminate.
Qed.

Lemma resolution_by_design_witness :
  "no-such-agent" <> BIN_NAME
  /\ resolve_bin which_finds_nothing realpath_dangling "no-such-agent"
       demo_world
     = (inr "no-such-agent", demo_world)
  /\ (resolve_bin which_finds realpath_dangling BIN_NAME demo_world).1
     = inl (FileNotFoundError "/usr/bin/letsgo")
  /\ appended demo_world
       (letsgo which_finds realpath_dangling tmp_a issuing_agent
          "demo.example.com" "support@example.com" "demo-keyvault" ""
          "STAGING" BIN_NAME demo_world).2 = [].
Proof.
  assert ("no-such-agent" <> BIN_NAME) as Hne by discriminate.
  split; [exact Hne|].
  split.
  - exact (proj1 (proj1 (resolution_by_design which_finds_nothing
                           realpath_dangling tmp_a no_such_program
                           "demo.example.com" "support@example.com"
                           "demo-keyvault" "" "STAGING" "no-such-agent"
                           demo_world) Hne)).
  - assert ((resolve_bin which_finds realpath_dangling BIN_NAME
               demo_world).1 = inl (FileNotFoundError "/usr/bin/letsgo"))
      as Hres by reflexivity.
    split; [exact Hres|].
    destruct (resolution_by_design which_finds realpath_dangling tmp_a
                issuing_agent "demo.example.com" "support@example.com"
                "demo-keyvault" "" "STAGING" BIN_NAME demo_world)
      as (_ & _ & _ & Hraise).
    exact (proj2 (Hraise _ Hres)).
Defined.

(** C4 fails as stated: a name given explicitly is not resolved.  The
    relative name of a program that does not exist is taken as the path to
    run; the workspace is made and the launch attempted before anything is
    reported, and what is reported is the launch failure. *)
Lemma explicit_name_unchecked :
  (resolve_bin which_finds_nothing realpath_dangling "no-such-agent"
     demo_world).1 = inr "no-such-agent"
  /\ PyStr.startswith "/" "no-such-agent" = false
  /\ absent_run.1 = inl (FileNotFoundError "no-such-agent")
  /\ exists (env : environment) (before : filesystem),
       appended demo_world absent_run.2
       = [EvMkdtemp "/tmp/tmpa"; EvRun ["no-such-agent"] env before;
          EvRmtree "/tmp/tmpa"].
Proof.
  split; [reflexivity|]. split; [reflexivity|]. split; [reflexivity|].
  eexists _, _. vm_compute. reflexivity.
Qed.

(** * Further properties of the code *)

(** ** The alias *)

Lemma split_first_clean (sep : ascii) (s h : string) (t : list string) :
  PyStr.split sep s = h :: t -> PyStr.contains sep h = false.
Proof.
  revert h t. induction s as [|c s IH]; intros h t.
  - by intros [= <- <-].
  - cbn [PyStr.split]. destruct (Ascii.eqb c sep) eqn:Hc.
    + by intros [= <- <-].
    + destruct (PyStr.split sep s) as [|h' t'] eqn:Hs.
      * intros [= <- <-]. cbn. by rewrite Hc.
      * intros [= <- <-]. cbn [PyStr.contains]. rewrite Hc.
        by rewrite (IH h' t').
Qed.

Lemma split_clean (sep : ascii) (s : string) :
  PyStr.contains sep s = false -> PyStr.split sep s = [s].
Proof.
  induction s as [|c s IH]; [done|].
  cbn [PyStr.contains PyStr.split]. intros [Hc Hs]%orb_false_elim.
  by rewrite Hc, (IH Hs).
Qed.

Lemma split_append (sep : ascii) (a rest : string) :
  PyStr.contains sep a = false ->
  PyStr.split sep (a +:+ String sep rest) = a :: PyStr.split sep rest.
Proof.
  induction a as [|c a IH].
  - intros _. change ("" +:+ String sep rest) with (String sep rest).
    cbn [PyStr.split]. by rewrite Ascii.eqb_refl.
  - cbn [PyStr.contains]. intros [Hc Ha]%orb_false_elim.
    change (String c a +:+ String sep rest)
      with (String c (a +:+ String sep rest)).
    cbn [PyStr.split]. by rewrite Hc, (IH Ha).
Qed.

Lemma replace_contains (old new c : ascii) (s : string) :
  c <> new ->
  PyStr.contains c (PyStr.replace old new s)
  = PyStr.contains c s && negb (Ascii.eqb c old).
Proof.
  intros Hnew. induction s as [|a s IH]; [done|].
  cbn [PyStr.replace PyStr.contains]. rewrite IH.
  destruct (Ascii.eqb_spec a old) as [->|Ha].
  - destruct (Ascii.eqb_spec new c) as [->|_]; [done|].
    destruct (Ascii.eqb_spec old c) as [->|Hoc].
    + rewrite Ascii.eqb_refl. cbn. by rewrite andb_false_r.
    + done.
  - destruct (Ascii.eqb_spec a c) as [->|Hac]; [|done].
    by destruct (Ascii.eqb_spec c old) as [->|_].
Qed.

Lemma replace_absent (old new : ascii) (s : string) :
  PyStr.contains old s = false -> PyStr.replace old new s = s.
Proof.
  induction s as [|a s IH]; [done|].
  cbn [PyStr.contains PyStr.replace]. intros [Ha Hs]%orb_false_elim.
  by rewrite Ha, (IH Hs).
Qed.

Lemma alias_clean_helper (domain alias : string) :
  main_domain_of domain = inr alias ->
  PyStr.contains PyStr.comma alias = false
  /\ PyStr.contains PyStr.star alias = false.
Proof.
  unfold main_domain_of.
  destruct (PyStr.split PyStr.comma domain) as [|h t] eqn:Hs; [done|].
  cbn [subscript0]. intros [= <-].
  rewrite !replace_contains by done.
  rewrite (split_first_clean _ _ _ _ Hs). split; [done|].
  rewrite Ascii.eqb_refl. cbn. by rewrite andb_false_r.
Qed.

(** X1. The alias holds neither a comma nor a star, whatever the domain
    list is. *)
Theorem alias_has_no_comma_no_star (domain alias : string) :
  main_domain_of domain = inr alias ->
  PyStr.contains PyStr.comma alias = false
  /\ PyStr.contains PyStr.star alias = false.
Proof. apply alias_clean_helper. Qed.

(** X2. Only the first entry of the domain list counts: what follows the
    first comma has no effect on the alias. *)
Theorem alias_of_first_entry (first rest : string) :
  PyStr.contains PyStr.comma first = false ->
  main_domain_of (first +:+ String PyStr.comma rest) = main_domain_of first.
Proof.
  intros Hfirst. unfold main_domain_of.
  by rewrite (split_append _ _ _ Hfirst), (split_clean _ _ Hfirst).
Qed.

(** X3. Deriving the alias of an alias changes nothing: a returned alias
    can be passed back as the domain and names the same files. *)
Theorem alias_idempotent (domain alias : string) :
  main_domain_of domain = inr alias -> main_domain_of alias = inr alias.
Proof.
  intros Ha. destruct (alias_clean_helper domain alias Ha) as [Hc Hs].
  unfold main_domain_of. rewrite (split_clean _ _ Hc). cbn [subscript0].
  by rewrite (replace_absent _ _ _ Hs).
Qed.

(** ** Facts about paths and reads *)

Lemma rmtree_outside (d p : string) (f : filesystem) :
  inside d p = false -> rmtree d f !! p = f !! p.
Proof.
  intros Hout. unfold rmtree.
  destruct (f !! p) as [x|] eqn:Hp.
  - by apply map_lookup_filter_Some.
  - apply map_lookup_filter_None. by left.
Qed.

Lemma prefix_append (x y : string) : String.prefix x (x +:+ y) = true.
Proof.
  induction x as [|a x IH]; [by destruct y|].
  change (String a x +:+ y) with (String a (x +:+ y)).
  cbn [String.prefix]. by destruct (ascii_dec a a).
Qed.

Lemma prefix_append_both (d x y : string) :
  String.prefix (d +:+ x) (d +:+ (x +:+ y)) = true.
Proof.
  induction d as [|a d IH]; [exact (prefix_append x y)|].
  change (String.prefix (String a (d +:+ x)) (String a (d +:+ (x +:+ y)))
          = true).
  cbn [String.prefix]. by destruct (ascii_dec a a).
Qed.

Lemma inside_keyfile (d : string) :
  inside d (joinpath d ACCOUNT_KEYFILE) = true.
Proof.
  rewrite joinpath_keyfile. unfold inside, PyStr.startswith.
  rewrite prefix_append_both. apply orb_true_r.
Qed.

Lemma seeded_outside (account_key d p : string) (f : filesystem) :
  inside d p = false -> seeded account_key d f !! p = f !! p.
Proof.
  intros Hout. unfold seeded.
  assert (d <> p) as Hd.
  { intros ->. by rewrite inside_self in Hout. }
  assert (joinpath d ACCOUNT_KEYFILE <> p) as Hk.
  { intros <-. by rewrite inside_keyfile in Hout. }
  destruct (PyStr.truthy account_key);
    by rewrite ?(lookup_insert_ne _ _ _ _ Hk), (lookup_insert_ne _ _ _ _ Hd).
Qed.

Lemma seeded_fresh (account_key d : string) (f : filesystem) :
  fresh_dir d f -> rmtree d (seeded account_key d f) = f.
Proof.
  intros Hfresh. apply map_eq. intros p.
  destruct (inside d p) eqn:Hin.
  - by rewrite (rmtree_inside _ _ _ Hin), (Hfresh p Hin).
  - by rewrite (rmtree_outside _ _ _ Hin), (seeded_outside _ _ _ _ Hin).
Qed.


Lemma read_events_prefix (f : filesystem) (paths : list string) :
  exists n, read_events f paths = map EvRead (take n paths).
Proof.
  induction paths as [|p ps [n IH]]; [by exists 0%nat|]. simpl.
  destruct (read_error f p).
  - by exists 1%nat.
  - exists (S n). simpl. by rewrite IH.
Qed.








Lemma text_or_empty_clean (f : filesystem) (p : string) :
  PyStr.contains PyStr.CR (text_or_empty f p) = false.
Proof.
  unfold text_or_empty, text_of. destruct (f !! p) as [[|c|]|]; try done.
  apply universal_newlines_clean.
Qed.

(** ** More about one invocation *)


Section Coverage.

Variable shutil_which : string -> option string.
Variable realpath : string -> option string.
Variable mkdtemp_name : filesystem -> string.
Variable agent : list string -> environment -> filesystem -> outcome.

(** The filesystem a resolved invocation leaves: what the launch left,
    without the workspace. *)
Lemma letsgo_final_fs
    (domain account_email keyvault account_key ca_dir bin_name : string)
    (w : world) (bin_path : string) :
  (resolve_bin shutil_which realpath bin_name w).1 = inr bin_path ->
  let tmpdir := mkdtemp_name (fs w) in
  let env :=
    overlaid (overlay domain account_email keyvault ca_dir tmpdir
                (deriveAlias_spec domain)) (environ w) in
  let before := seeded account_key tmpdir (fs w) in
  fs (letsgo shutil_which realpath mkdtemp_name agent
        domain account_email keyvault account_key ca_dir bin_name w).2
  = rmtree tmpdir (after_launch before (agent [bin_path] env before)).
Proof.
  intros Hres tmpdir env before.
  rewrite (letsgo_resolved _ _ _ _ _ _ _ _ _ _ _ _ Hres). cbv zeta.
  fold tmpdir env before.
  destruct (agent [bin_path] env before) as [c|rc out after]; [done|].
  by destruct (rc =? 0).
Qed.



(** X7. [letsgo] itself writes and removes nothing outside its workspace:
    at a path that is not in the workspace, the filesystem after the call
    holds what the child left there, or what the caller had when the child
    could not be launched. *)
Theorem outside_workspace_untouched
    (domain account_email keyvault account_key ca_dir bin_name : string)
    (w : world) (bin_path p : string) :
  (resolve_bin shutil_which realpath bin_name w).1 = inr bin_path ->
  let tmpdir := mkdtemp_name (fs w) in
  let env :=
    overlaid (overlay domain account_email keyvault ca_dir tmpdir
                (deriveAlias_spec domain)) (environ w) in
  let launched := agent [bin_path] env (seeded account_key tmpdir (fs w)) in
  inside tmpdir p = false ->
  fs (letsgo shutil_which realpath mkdtemp_name agent
        domain account_email keyvault account_key ca_dir bin_name w).2 !! p
  = after_launch (fs w) launched !! p.
Proof.
  intros Hres tmpdir env launched Hout.
  rewrite (letsgo_final_fs _ _ _ _ _ _ _ _ Hres). fold tmpdir env launched.
  rewrite (rmtree_outside _ _ _ Hout).
  destruct launched as [c|rc out after]; [|done].
  apply seeded_outside, Hout.
Qed.


(** A result has exactly the five keys [alias], [certificate], [key],
    [issuer] and [account_key]. *)
Lemma result_keys
    (domain account_email keyvault account_key ca_dir bin_name : string)
    (w : world) (r : gmap string string) :
  (letsgo shutil_which realpath mkdtemp_name agent
     domain account_email keyvault account_key ca_dir bin_name w).1 = inr r ->
  dom r = list_to_set
            ["alias"; "certificate"; "key"; "issuer"; "account_key"].
Proof.
  intros Hr.
  destruct (letsgo_returns shutil_which realpath mkdtemp_name agent
              _ _ _ _ _ _ _ _ Hr) as (b & out & after & _ & _ & _ & ->).
  unfold result_dict. rewrite !dom_insert_L, dom_empty_L.
  cbn [list_to_set foldr]. set_solver.
Qed.


End Coverage.

(** ** The script *)

Lemma is_dir_insert_ne (f : filesystem) (p q : string) (x : node) :
  q <> p -> is_dir (<[q := x]> f) p = is_dir f p.
Proof. intros Hne. unfold is_dir. by rewrite lookup_insert_ne. Qed.

Lemma is_dir_true (f : filesystem) (p : string) :
  is_dir f p = true -> f !! p = Some Dir.
Proof. unfold is_dir. by destruct (f !! p) as [[|c|]|]. Qed.

(** The four writes fail at the first name that is a directory, and
    otherwise leave the four files. *)
Lemma save_results_run (r : gmap string string) (w : world) :
  item r "alias" = "demo.example.com" ->
  match save_results r w with
  | (inl e, _) =>
      exists p : string,
        e = IsADirectoryError p /\ p ∈ script_files /\ fs w !! p = Some Dir
  | (inr _, w') =>
      (forall p, p ∈ script_files -> is_dir (fs w) p = false)
      /\ w' = World (environ w) (saved r (fs w)) (log w ++ save_events r)
  end.
Proof.
  intros Ha. unfold save_results, saved, save_events, script_files.
  rewrite Ha.
  change ("demo.example.com" +:+ ".key") with "demo.example.com.key".
  change ("demo.example.com" +:+ ".issuer.crt")
    with "demo.example.com.issuer.crt".
  change ("demo.example.com" +:+ ".crt") with "demo.example.com.crt".
  unfold mbind, M_bind, Path_write_text, write_text, emit, set_fs.
  cbn [fs log environ].
  destruct (is_dir (fs w) "account.key") eqn:H1.
  { exists "account.key". split; [done|].
    split; [set_solver | by apply is_dir_true]. }
  cbn [fs log environ]. rewrite !is_dir_insert_ne by done.
  destruct (is_dir (fs w) "demo.example.com.crt") eqn:H2.
  { exists "demo.example.com.crt". split; [done|].
    split; [set_solver | by apply is_dir_true]. }
  cbn [fs log environ]. rewrite !is_dir_insert_ne by done.
  destruct (is_dir (fs w) "demo.example.com.issuer.crt") eqn:H3.
  { exists "demo.example.com.issuer.crt". split; [done|].
    split; [set_solver | by apply is_dir_true]. }
  cbn [fs log environ]. rewrite !is_dir_insert_ne by done.
  destruct (is_dir (fs w) "demo.example.com.key") eqn:H4.
  { exists "demo.example.com.key". split; [done|].
    split; [set_solver | by apply is_dir_true]. }
  split.
  - intros p Hp. rewrite !elem_of_cons in Hp.
    destruct Hp as [->|[->|[->|[->|Hp]]]]; [done..|].
    by apply elem_of_nil in Hp.
  - by rewrite <- !app_assoc.
Qed.

Section ScriptFacts.

Variable shutil_which : string -> option string.
Variable realpath : string -> option string.
Variable mkdtemp_name : filesystem -> string.
Variable agent : list string -> environment -> filesystem -> outcome.

Lemma letsgo_returns_dict
    (domain account_email keyvault account_key ca_dir bin_name : string)
    (w : world) (r : gmap string string) :
  (letsgo shutil_which realpath mkdtemp_name agent
     domain account_email keyvault account_key ca_dir bin_name w).1 = inr r ->
  exists c k i a,
    r = result_dict (deriveAlias_spec domain) c k i a
    /\ PyStr.contains PyStr.CR a = false.
Proof.
  intros Hr.
  destruct (letsgo_returns shutil_which realpath mkdtemp_name agent
              _ _ _ _ _ _ _ _ Hr) as (b & out & after & _ & _ & _ & ->).
  eexists _, _, _, _. split; [reflexivity|]. apply text_or_empty_clean.
Qed.

Lemma item_result_dict (alias c k i a : string) :
  let r := result_dict alias c k i a in
  item r "alias" = alias /\ item r "certificate" = c /\ item r "key" = k
  /\ item r "issuer" = i /\ item r "account_key" = a.
Proof.
  cbv zeta. unfold item.
  destruct (result_dict_lookup alias c k i a) as (-> & -> & -> & -> & ->).
  done.
Qed.

Lemma issued_alias (account_key : string) (w : world)
    (r : gmap string string) :
  (letsgo shutil_which realpath mkdtemp_name agent DEMO_DOMAINS DEMO_ACCOUNT
     DEMO_KEYVAULT account_key "STAGING" BIN_NAME w).1 = inr r ->
  item r "alias" = "demo.example.com".
Proof.
  intros Hr.
  destruct (letsgo_returns_dict _ _ _ _ _ _ _ _ Hr)
    as (c & k & i & a & -> & _).
  by destruct (item_result_dict (deriveAlias_spec DEMO_DOMAINS) c k i a)
    as (-> & _).
Qed.

(** What the script does, by the outcome of its two calls. *)
Lemma main_run (sw : script_world) :
  main shutil_which realpath mkdtemp_name agent sw
  = match first_issue shutil_which realpath mkdtemp_name agent (base sw) with
    | (inl e, w1) => (inl (Raised e), ScriptWorld w1 (stdout sw))
    | (inr r1, w1) =>
        let printed :=
          stdout sw ++ [item r1 "alias"; item r1 "certificate";
                        item r1 "key"; item r1 "issuer"] in
        match second_issue shutil_which realpath mkdtemp_name agent
                (item r1 "account_key") w1 with
        | (inl e, w2) => (inl (Raised e), ScriptWorld w2 printed)
        | (inr r2, w2) => call (save_results r2) (ScriptWorld w2 printed)
        end
    end.
Proof.
  unfold main, first_issue, second_issue.
  unfold mbind at 1, Script_bind at 1, call at 1.
  destruct (letsgo _ _ _ _ _ _ _ _ _ _ (base sw)) as [[e|r1] w1] eqn:H1;
    [done|].
  destruct (letsgo_returns_dict DEMO_DOMAINS DEMO_ACCOUNT DEMO_KEYVAULT ""
              "STAGING" BIN_NAME (base sw) r1) as (c & k & i & a & -> & _);
    [by rewrite H1|].
  destruct (item_result_dict (deriveAlias_spec DEMO_DOMAINS) c k i a)
    as (Ia & Ic & Ik & Ii & Iak).
  destruct (result_dict_lookup (deriveAlias_spec DEMO_DOMAINS) c k i a)
    as (La & Lc & Lk & Li & Lak).
  cbv zeta in *. rewrite Ia, Ic, Ik, Ii, Iak.
  unfold mbind, Script_bind, getitem, print.
  rewrite La, Lc, Lk, Li, Lak. cbn [base stdout].
  clear Ia Ic Ik Ii Iak La Lc Lk Li Lak.
  unfold call at 1. cbn [base stdout].
  destruct (letsgo _ _ _ _ _ _ _ a _ _ w1) as [[e|r2] w2] eqn:H2.
  { by rewrite <- !app_assoc. }
  destruct (letsgo_returns_dict DEMO_DOMAINS DEMO_ACCOUNT DEMO_KEYVAULT a
              "STAGING" BIN_NAME w1 r2) as (c2 & k2 & i2 & a2 & -> & _);
    [by rewrite H2|].
  destruct (item_result_dict (deriveAlias_spec DEMO_DOMAINS) c2 k2 i2 a2)
    as (Ia & Ic & Ik & Ii & Iak).
  destruct (result_dict_lookup (deriveAlias_spec DEMO_DOMAINS) c2 k2 i2 a2)
    as (La & Lc & Lk & Li & Lak).
  cbv zeta in *. unfold save_results. rewrite Ia, Ic, Ik, Ii, Iak.
  rewrite La, Lc, Lk, Li, Lak. rewrite <- !app_assoc. cbn [app].
  unfold call, mbind, M_bind. cbn [base stdout].
  destruct (Path_write_text _ _ w2) as [[e|[]] w3]; [done|].
  cbn [base stdout].
  destruct (Path_write_text _ _ w3) as [[e|[]] w4]; [done|].
  cbn [base stdout].
  destruct (Path_write_text _ _ w4) as [[e|[]] w5]; [done|].
  cbn [base stdout].
  by destruct (Path_write_text _ _ w5) as [[e|[]] w6].
Qed.

Lemma demo_alias : deriveAlias_spec DEMO_DOMAINS = "demo.example.com".
Proof. reflexivity. Qed.

(** X11. When the script completes, both calls returned and none of the
    four names was a directory; the screen shows alias, certificate, key
    and issuer of the first result, never an account key; and the working
    directory holds the second result: [account.key],
    [demo.example.com.crt], [demo.example.com.issuer.crt] and
    [demo.example.com.key], overwriting what was there, every other path
    being as the second call left it. *)
Theorem script_success (sw : script_world) (u : unit) :
  let first := first_issue shutil_which realpath mkdtemp_name agent (base sw) in
  let run := main shutil_which realpath mkdtemp_name agent sw in
  run.1 = inr u ->
  exists r1 r2 : gmap string string,
    let second :=
      second_issue shutil_which realpath mkdtemp_name agent
        (item r1 "account_key") first.2 in
    let f := fs (base run.2) in
    first.1 = inr r1 /\ second.1 = inr r2
    /\ stdout run.2
       = stdout sw ++ [item r1 "alias"; item r1 "certificate";
                       item r1 "key"; item r1 "issuer"]
    /\ (forall p, p ∈ script_files -> fs second.2 !! p <> Some Dir)
    /\ f !! "account.key" = Some (File (item r2 "account_key"))
    /\ f !! "demo.example.com.crt" = Some (File (item r2 "certificate"))
    /\ f !! "demo.example.com.issuer.crt" = Some (File (item r2 "issuer"))
    /\ f !! "demo.example.com.key" = Some (File (item r2 "key"))
    /\ (forall p, p ∉ script_files -> f !! p = fs second.2 !! p).
Proof.
  intros first run. subst first run. rewrite main_run.
  destruct (first_issue _ _ _ _ (base sw)) as [[e|r1] w1]; [done|].
  cbv zeta. cbn [fst snd].
  destruct (second_issue _ _ _ _ _ w1) as [[e|r2] w2] eqn:H2; [done|].
  assert (item r2 "alias" = "demo.example.com") as Ha.
  { apply (issued_alias (item r1 "account_key") w1).
    unfold second_issue in H2. by rewrite H2. }
  pose proof (save_results_run r2 w2 Ha) as Hs.
  unfold call. cbn [base stdout].
  destruct (save_results r2 w2) as [[e|[]] w3]; [done|].
  destruct Hs as [Hnd ->].
  intros _. exists r1, r2. rewrite H2. cbn [fst snd base stdout fs].
  split; [done|]. split; [done|]. split; [done|].
  split.
  { intros p Hp Hd. specialize (Hnd p Hp). unfold is_dir in Hnd.
    by rewrite Hd in Hnd. }
  unfold saved. rewrite Ha.
  change ("demo.example.com" +:+ ".key") with "demo.example.com.key".
  change ("demo.example.com" +:+ ".issuer.crt")
    with "demo.example.com.issuer.crt".
  change ("demo.example.com" +:+ ".crt") with "demo.example.com.crt".
  repeat split; try by simplify_map_eq.
  intros p Hp. unfold script_files in Hp.
  rewrite !lookup_insert_ne; [done|set_solver..].
Qed.

(** X12. Reuse of the account key: when the first call returned a
    non-empty account key and, in the second call, the child leaves the
    key file it is given as it found it, the [account.key] the script
    saves holds the account key of the first issuance. *)
Theorem script_keeps_first_account_key
    (sw : script_world) (u : unit) (r1 : gmap string string) :
  let first := first_issue shutil_which realpath mkdtemp_name agent (base sw) in
  let run := main shutil_which realpath mkdtemp_name agent sw in
  let key1 := item r1 "account_key" in
  let tmpdir := mkdtemp_name (fs first.2) in
  let keyfile := tmpdir +:+ "/" +:+ ACCOUNT_KEYFILE in
  let env :=
    overlaid (overlay DEMO_DOMAINS DEMO_ACCOUNT DEMO_KEYVAULT "STAGING"
                tmpdir (deriveAlias_spec DEMO_DOMAINS)) (environ first.2) in
  let before := seeded key1 tmpdir (fs first.2) in
  first.1 = inr r1 ->
  key1 <> "" ->
  (forall bin_path out after,
      agent [bin_path] env before = Exited 0 out after ->
      after !! keyfile = before !! keyfile) ->
  run.1 = inr u ->
  fs (base run.2) !! "account.key" = Some (File key1).
Proof.
  intros first run key1 tmpdir keyfile env before H1 Hne Hkept.
  subst run. rewrite main_run. fold first.
  destruct (letsgo_returns_dict DEMO_DOMAINS DEMO_ACCOUNT DEMO_KEYVAULT ""
              "STAGING" BIN_NAME (base sw) r1) as (c & k & i & a & Hr1 & Hclean).
  { exact H1. }
  assert (key1 = a) as Hkey1.
  { subst key1. rewrite Hr1.
    by destruct (item_result_dict (deriveAlias_spec DEMO_DOMAINS) c k i a)
      as (_ & _ & _ & _ & ->). }
  destruct first as [[e|r1'] w1] eqn:Hfirst; [done|].
  cbn [fst snd] in *. injection H1 as ->. cbv zeta.
  fold key1.
  destruct (second_issue _ _ _ _ key1 w1) as [[e|r2] w2] eqn:H2; [done|].
  assert (item r2 "alias" = "demo.example.com") as Ha.
  { apply (issued_alias key1 w1).
    unfold second_issue in H2. by rewrite H2. }
  pose proof (save_results_run r2 w2 Ha) as Hs.
  unfold call. cbn [base stdout].
  destruct (save_results r2 w2) as [[e|[]] w3]; [done|].
  destruct Hs as [_ ->].
  intros _. cbn [fst snd base fs].
  destruct (letsgo_returns shutil_which realpath mkdtemp_name agent
              DEMO_DOMAINS DEMO_ACCOUNT DEMO_KEYVAULT key1 "STAGING" BIN_NAME
              w1 r2)
    as (bin_path & out & after & _ & Hl & Hfe & Hr2).
  { unfold second_issue in H2. by rewrite H2. }
  fold tmpdir env before in Hl, Hfe, Hr2.
  specialize (Hkept bin_path out after Hl).
  assert (before !! keyfile = Some (File key1)) as Hseed.
  { subst before keyfile. unfold seeded. rewrite <- joinpath_keyfile.
    destruct key1; [done|]. cbn [PyStr.truthy]. apply lookup_insert_eq. }
  rewrite Hseed in Hkept. subst keyfile.
  rewrite <- joinpath_keyfile in Hkept.
  unfold saved. rewrite Ha. clear Ha. rewrite Hr2.
  match goal with
  | |- context [item (result_dict ?al ?c2 ?k2 ?i2 ?a2) _] =>
      destruct (item_result_dict al c2 k2 i2 a2) as (_ & -> & -> & -> & ->)
  end.
  change ("demo.example.com" +:+ ".key") with "demo.example.com.key".
  change ("demo.example.com" +:+ ".issuer.crt")
    with "demo.example.com.issuer.crt".
  change ("demo.example.com" +:+ ".crt") with "demo.example.com.crt".
  rewrite !lookup_insert_ne by done. rewrite lookup_insert_eq.
  do 2 f_equal. rewrite (text_of_file _ _ _ Hkept).
  apply universal_newlines_plain. by rewrite Hkey1.
Qed.

End ScriptFacts.

(** ** The further properties at concrete inputs *)

Lemma alias_has_no_comma_no_star_witness :
  main_domain_of "*.example.com,example.com" = inr "_.example.com"
  /\ PyStr.contains PyStr.star "_.example.com" = false.
Proof.
  assert (main_domain_of "*.example.com,example.com" = inr "_.example.com")
    as H by reflexivity.
  split; [exact H|].
  exact (proj2 (alias_has_no_comma_no_star _ _ H)).
Defined.

Lemma alias_of_first_entry_witness :
  PyStr.contains PyStr.comma "*.example.com" = false
  /\ main_domain_of ("*.example.com" +:+ String PyStr.comma "example.com")
     = main_domain_of "*.example.com".
Proof.
  assert (PyStr.contains PyStr.comma "*.example.com" = false) as H
    by reflexivity.
  split; [exact H|]. exact (alias_of_first_entry _ "example.com" H).
Defined.

Lemma alias_idempotent_witness :
  main_domain_of "*.example.com,example.com" = inr "_.example.com"
  /\ main_domain_of "_.example.com" = inr "_.example.com".
Proof.
  assert (main_domain_of "*.example.com,example.com" = inr "_.example.com")
    as H by reflexivity.
  split; [exact H|]. exact (alias_idempotent _ _ H).
Defined.



(** With the agent that forgets the private key, two reads are made. *)
Example keyless_reads :
  List.filter is_read (appended demo_world keyless_run.2)
  = [EvRead "/tmp/tmpa/demo.example.com.crt";
     EvRead "/tmp/tmpa/demo.example.com.key"].
Proof. reflexivity. Qed.

Lemma home_resolved :
  (resolve_bin which_finds realpath_same BIN_NAME home_world).1
  = inr "/usr/bin/letsgo".
Proof. reflexivity. Defined.

Lemma outside_workspace_untouched_witness :
  inside "/tmp/tmpa" "/home/u/notes" = false
  /\ fs home_run.2 !! "/home/u/notes" = Some (File "n").
Proof.
  assert (inside "/tmp/tmpa" "/home/u/notes" = false) as Hout by reflexivity.
  split; [exact Hout|].
  etrans.
  - exact (outside_workspace_untouched which_finds realpath_same tmp_a
             issuing_agent "demo.example.com" "support@example.com"
             "demo-keyvault" "" "STAGING" BIN_NAME home_world
             "/usr/bin/letsgo" "/home/u/notes" home_resolved Hout).
  - vm_compute. reflexivity.
Defined.




Lemma script_success_witness :
  script_run.1 = inr tt
  /\ exists r2 : gmap string string,
       fs (base script_run.2) !! "account.key"
       = Some (File (item r2 "account_key")).
Proof.
  assert (script_run.1 = inr tt) as H by reflexivity.
  split; [exact H|].
  destruct (script_success which_finds realpath_same tmp_a issuing_agent
              home_script tt H) as (r1 & r2 & _ & _ & _ & _ & Hk & _).
  exists r2. exact Hk.
Defined.

Lemma script_keeps_first_account_key_witness :
  item script_first_result "account_key" = "FRESH"
  /\ fs (base script_run.2) !! "account.key" = Some (File "FRESH").
Proof.
  split; [reflexivity|].
  refine (script_keeps_first_account_key which_finds realpath_same tmp_a
            issuing_agent home_script tt script_first_result _ _ _ _).
  - reflexivity.
  - vm_compute. discriminate.
  - intros bin_path out after Hl. vm_compute in Hl.
    injection Hl as _ <-. vm_compute. reflexivity.
  - reflexivity.
Defined.

(** A directory in the way: the script has saved [account.key] when the
    write of the certificate raises. *)
Example script_blocked :
  script_blocked_run.1
  = inl (Raised (IsADirectoryError "demo.example.com.crt"))
  /\ fs (base script_blocked_run.2) !! "account.key" = Some (File "FRESH")
  /\ fs (base script_blocked_run.2) !! "demo.example.com.key" = None.
Proof. by vm_compute. Qed.
